(** * Pong game server: the engine state machine and the session handlers

    A shallow embedding of [backend/pong/game_engine.py] (class [GameEngine])
    and of the message handlers of [backend/pong/consumers.py]
    (class [PongConsumer]), together with the properties of the rules of the
    game that the specification states.

    Python floats are IEEE binary64 numbers: they are modelled by Rocq's
    primitive floats, through the interface [PyFloat].  Python integers are
    [Z].  The module [random], the functions [math.cos] and [math.sin] and
    the power [x ** 2], which CPython takes from the C library, are
    parameters of the development (interface [PyRuntime]). *)

From Stdlib Require Import ZArith Floats Lia.
From stdpp Require Import gmap strings list.

Open Scope Z_scope.

(** ** Numbers *)

(** The operations the engine applies to a Python [float]. *)
Class PyFloat (F : Type) := {
  fadd : F -> F -> F;
  fsub : F -> F -> F;
  fmul : F -> F -> F;
  fdiv : F -> F -> F;
  fneg : F -> F;
  fabs : F -> F;
  fsqrt : F -> F;
  fltb : F -> F -> bool;
  fleb : F -> F -> bool;
  of_int : Z -> F
}.

Declare Scope py_scope.
Delimit Scope py_scope with py.
Infix "+" := fadd : py_scope.
Infix "-" := fsub : py_scope.
Infix "*" := fmul : py_scope.
Infix "/" := fdiv : py_scope.
Notation "- x" := (fneg x) : py_scope.
Infix "<?" := fltb : py_scope.
Infix "<=?" := fleb : py_scope.
Notation "x >? y" := (fltb y x) (only parsing) : py_scope.
Notation "x >=? y" := (fleb y x) (only parsing) : py_scope.

(** What the proofs use of the comparisons; it holds of binary64 numbers,
    NaN included. *)
Class PyFloatLaws (F : Type) `{PyFloat F} := {
  fltb_fleb : forall a b : F, fltb a b = true -> fleb a b = true
}.

Section Numbers.
Context {F : Type} `{PyFloat F}.

(** A decimal literal [n/d] of the source: the division of two small
    integers is correctly rounded, as the reading of the literal is. *)
Definition dec (n d : Z) : F := (of_int n / of_int d)%py.

(** The builtins [min(a, b)] and [max(a, b)]: the first argument is kept
    unless the second is strictly smaller (resp. larger). *)
Definition pymin (a b : F) : F := if (b <? a)%py then b else a.
Definition pymax (a b : F) : F := if (b >? a)%py then b else a.

End Numbers.

(** Conversion of a small Python [int] to a binary64 number. *)
Definition float_of_int (z : Z) : float :=
  match z with
  | Z0 => PrimFloat.of_uint63 (Uint63.of_Z 0)
  | Zpos _ => PrimFloat.of_uint63 (Uint63.of_Z z)
  | Zneg p => PrimFloat.opp (PrimFloat.of_uint63 (Uint63.of_Z (Zpos p)))
  end.

#[export] Instance float_PyFloat : PyFloat float := {|
  fadd := PrimFloat.add;
  fsub := PrimFloat.sub;
  fmul := PrimFloat.mul;
  fdiv := PrimFloat.div;
  fneg := PrimFloat.opp;
  fabs := PrimFloat.abs;
  fsqrt := PrimFloat.sqrt;
  fltb := PrimFloat.ltb;
  fleb := PrimFloat.leb;
  of_int := float_of_int
|}.

(** ** The Python runtime: [random] and [math] *)

(** [random] is a generator with a hidden global state [Rng]; every draw
    returns the value and the next state.  [pow2 x] is [x ** 2] on a float:
    CPython returns what [pow(x, 2.0)] of the C library returns, which need
    not be the correctly rounded product, and raises [OverflowError] when
    the square of a finite [x] is infinite (beyond 1.3e154); the statements
    that read a square say so. *)
Class PyRuntime (F : Type) := {
  Rng : Type;
  random_choice : list Z -> Rng -> Z * Rng;
  random_uniform : F -> F -> Rng -> F * Rng;
  math_pi : F;
  math_cos : F -> F;
  math_sin : F -> F;
  pow2 : F -> F
}.

(** ** game_engine.py *)

Module game_engine.

Inductive Status := waiting_for_opponent | waiting_for_ready | playing | finished.

Definition Status_eqb (a b : Status) : bool :=
  match a, b with
  | waiting_for_opponent, waiting_for_opponent
  | waiting_for_ready, waiting_for_ready
  | playing, playing
  | finished, finished => true
  | _, _ => false
  end.

(** The event record that [update] returns; [score] is [None] or the number
    of the player who scored. *)
Record Events := {
  paddle_hit : bool;
  wall_hit : bool;
  score : option Z;
  game_over : bool
}.

Section Engine.
Context {F : Type} `{PyFloat F} `{PyRuntime F}.

Record GameEngine := {
  room_code : string;
  points_limit : Z;
  status : Status;
  player1_ready : bool;
  player2_ready : bool;
  player1_connected : bool;
  player2_connected : bool;
  score_p1 : Z;
  score_p2 : Z;
  winner : option string;
  p1_y : F;
  p2_y : F;
  p1_direction : string;
  p2_direction : string;
  ball_x : F;
  ball_y : F;
  ball_velocity_x : F;
  ball_velocity_y : F;
  ball_speed : F
}.

(** Assignments to one attribute. *)
Definition set_status (v : Status) (e : GameEngine) : GameEngine :=
  {| room_code := room_code e; points_limit := points_limit e; status := v;
     player1_ready := player1_ready e; player2_ready := player2_ready e;
     player1_connected := player1_connected e; player2_connected := player2_connected e;
     score_p1 := score_p1 e; score_p2 := score_p2 e; winner := winner e; p1_y := p1_y e;
     p2_y := p2_y e; p1_direction := p1_direction e; p2_direction := p2_direction e;
     ball_x := ball_x e; ball_y := ball_y e; ball_velocity_x := ball_velocity_x e;
     ball_velocity_y := ball_velocity_y e; ball_speed := ball_speed e |}.

Definition set_player1_ready (v : bool) (e : GameEngine) : GameEngine :=
  {| room_code := room_code e; points_limit := points_limit e; status := status e;
     player1_ready := v; player2_ready := player2_ready e;
     player1_connected := player1_connected e; player2_connected := player2_connected e;
     score_p1 := score_p1 e; score_p2 := score_p2 e; winner := winner e; p1_y := p1_y e;
     p2_y := p2_y e; p1_direction := p1_direction e; p2_direction := p2_direction e;
     ball_x := ball_x e; ball_y := ball_y e; ball_velocity_x := ball_velocity_x e;
     ball_velocity_y := ball_velocity_y e; ball_speed := ball_speed e |}.

Definition set_player2_ready (v : bool) (e : GameEngine) : GameEngine :=
  {| room_code := room_code e; points_limit := points_limit e; status := status e;
     player1_ready := player1_ready e; player2_ready := v;
     player1_connected := player1_connected e; player2_connected := player2_connected e;
     score_p1 := score_p1 e; score_p2 := score_p2 e; winner := winner e; p1_y := p1_y e;
     p2_y := p2_y e; p1_direction := p1_direction e; p2_direction := p2_direction e;
     ball_x := ball_x e; ball_y := ball_y e; ball_velocity_x := ball_velocity_x e;
     ball_velocity_y := ball_velocity_y e; ball_speed := ball_speed e |}.

Definition set_player1_connected (v : bool) (e : GameEngine) : GameEngine :=
  {| room_code := room_code e; points_limit := points_limit e; status := status e;
     player1_ready := player1_ready e; player2_ready := player2_ready e;
     player1_connected := v; player2_connected := player2_connected e;
     score_p1 := score_p1 e; score_p2 := score_p2 e; winner := winner e; p1_y := p1_y e;
     p2_y := p2_y e; p1_direction := p1_direction e; p2_direction := p2_direction e;
     ball_x := ball_x e; ball_y := ball_y e; ball_velocity_x := ball_velocity_x e;
     ball_velocity_y := ball_velocity_y e; ball_speed := ball_speed e |}.

Definition set_player2_connected (v : bool) (e : GameEngine) : GameEngine :=
  {| room_code := room_code e; points_limit := points_limit e; status := status e;
     player1_ready := player1_ready e; player2_ready := player2_ready e;
     player1_connected := player1_connected e; player2_connected := v;
     score_p1 := score_p1 e; score_p2 := score_p2 e; winner := winner e; p1_y := p1_y e;
     p2_y := p2_y e; p1_direction := p1_direction e; p2_direction := p2_direction e;
     ball_x := ball_x e; ball_y := ball_y e; ball_velocity_x := ball_velocity_x e;
     ball_velocity_y := ball_velocity_y e; ball_speed := ball_speed e |}.

Definition set_score_p1 (v : Z) (e : GameEngine) : GameEngine :=
  {| room_code := room_code e; points_limit := points_limit e; status := status e;
     player1_ready := player1_ready e; player2_ready := player2_ready e;
     player1_connected := player1_connected e; player2_connected := player2_connected e;
     score_p1 := v; score_p2 := score_p2 e; winner := winner e; p1_y := p1_y e;
     p2_y := p2_y e; p1_direction := p1_direction e; p2_direction := p2_direction e;
     ball_x := ball_x e; ball_y := ball_y e; ball_velocity_x := ball_velocity_x e;
     ball_velocity_y := ball_velocity_y e; ball_speed := ball_speed e |}.

Definition set_score_p2 (v : Z) (e : GameEngine) : GameEngine :=
  {| room_code := room_code e; points_limit := points_limit e; status := status e;
     player1_ready := player1_ready e; player2_ready := player2_ready e;
     player1_connected := player1_connected e; player2_connected := player2_connected e;
     score_p1 := score_p1 e; score_p2 := v; winner := winner e; p1_y := p1_y e;
     p2_y := p2_y e; p1_direction := p1_direction e; p2_direction := p2_direction e;
     ball_x := ball_x e; ball_y := ball_y e; ball_velocity_x := ball_velocity_x e;
     ball_velocity_y := ball_velocity_y e; ball_speed := ball_speed e |}.

Definition set_winner (v : option string) (e : GameEngine) : GameEngine :=
  {| room_code := room_code e; points_limit := points_limit e; status := status e;
     player1_ready := player1_ready e; player2_ready := player2_ready e;
     player1_connected := player1_connected e; player2_connected := player2_connected e;
     score_p1 := score_p1 e; score_p2 := score_p2 e; winner := v; p1_y := p1_y e;
     p2_y := p2_y e; p1_direction := p1_direction e; p2_direction := p2_direction e;
     ball_x := ball_x e; ball_y := ball_y e; ball_velocity_x := ball_velocity_x e;
     ball_velocity_y := ball_velocity_y e; ball_speed := ball_speed e |}.

Definition set_p1_y (v : F) (e : GameEngine) : GameEngine :=
  {| room_code := room_code e; points_limit := points_limit e; status := status e;
     player1_ready := player1_ready e; player2_ready := player2_ready e;
     player1_connected := player1_connected e; player2_connected := player2_connected e;
     score_p1 := score_p1 e; score_p2 := score_p2 e; winner := winner e; p1_y := v;
     p2_y := p2_y e; p1_direction := p1_direction e; p2_direction := p2_direction e;
     ball_x := ball_x e; ball_y := ball_y e; ball_velocity_x := ball_velocity_x e;
     ball_velocity_y := ball_velocity_y e; ball_speed := ball_speed e |}.

Definition set_p2_y (v : F) (e : GameEngine) : GameEngine :=
  {| room_code := room_code e; points_limit := points_limit e; status := status e;
     player1_ready := player1_ready e; player2_ready := player2_ready e;
     player1_connected := player1_connected e; player2_connected := player2_connected e;
     score_p1 := score_p1 e; score_p2 := score_p2 e; winner := winner e; p1_y := p1_y e;
     p2_y := v; p1_direction := p1_direction e; p2_direction := p2_direction e;
     ball_x := ball_x e; ball_y := ball_y e; ball_velocity_x := ball_velocity_x e;
     ball_velocity_y := ball_velocity_y e; ball_speed := ball_speed e |}.

Definition set_p1_direction (v : string) (e : GameEngine) : GameEngine :=
  {| room_code := room_code e; points_limit := points_limit e; status := status e;
     player1_ready := player1_ready e; player2_ready := player2_ready e;
     player1_connected := player1_connected e; player2_connected := player2_connected e;
     score_p1 := score_p1 e; score_p2 := score_p2 e; winner := winner e; p1_y := p1_y e;
     p2_y := p2_y e; p1_direction := v; p2_direction := p2_direction e; ball_x := ball_x e;
     ball_y := ball_y e; ball_velocity_x := ball_velocity_x e;
     ball_velocity_y := ball_velocity_y e; ball_speed := ball_speed e |}.

Definition set_p2_direction (v : string) (e : GameEngine) : GameEngine :=
  {| room_code := room_code e; points_limit := points_limit e; status := status e;
     player1_ready := player1_ready e; player2_ready := player2_ready e;
     player1_connected := player1_connected e; player2_connected := player2_connected e;
     score_p1 := score_p1 e; score_p2 := score_p2 e; winner := winner e; p1_y := p1_y e;
     p2_y := p2_y e; p1_direction := p1_direction e; p2_direction := v; ball_x := ball_x e;
     ball_y := ball_y e; ball_velocity_x := ball_velocity_x e;
     ball_velocity_y := ball_velocity_y e; ball_speed := ball_speed e |}.

Definition set_ball_x (v : F) (e : GameEngine) : GameEngine :=
  {| room_code := room_code e; points_limit := points_limit e; status := status e;
     player1_ready := player1_ready e; player2_ready := player2_ready e;
     player1_connected := player1_connected e; player2_connected := player2_connected e;
     score_p1 := score_p1 e; score_p2 := score_p2 e; winner := winner e; p1_y := p1_y e;
     p2_y := p2_y e; p1_direction := p1_direction e; p2_direction := p2_direction e;
     ball_x := v; ball_y := ball_y e; ball_velocity_x := ball_velocity_x e;
     ball_velocity_y := ball_velocity_y e; ball_speed := ball_speed e |}.

Definition set_ball_y (v : F) (e : GameEngine) : GameEngine :=
  {| room_code := room_code e; points_limit := points_limit e; status := status e;
     player1_ready := player1_ready e; player2_ready := player2_ready e;
     player1_connected := player1_connected e; player2_connected := player2_connected e;
     score_p1 := score_p1 e; score_p2 := score_p2 e; winner := winner e; p1_y := p1_y e;
     p2_y := p2_y e; p1_direction := p1_direction e; p2_direction := p2_direction e;
     ball_x := ball_x e; ball_y := v; ball_velocity_x := ball_velocity_x e;
     ball_velocity_y := ball_velocity_y e; ball_speed := ball_speed e |}.

Definition set_ball_velocity_x (v : F) (e : GameEngine) : GameEngine :=
  {| room_code := room_code e; points_limit := points_limit e; status := status e;
     player1_ready := player1_ready e; player2_ready := player2_ready e;
     player1_connected := player1_connected e; player2_connected := player2_connected e;
     score_p1 := score_p1 e; score_p2 := score_p2 e; winner := winner e; p1_y := p1_y e;
     p2_y := p2_y e; p1_direction := p1_direction e; p2_direction := p2_direction e;
     ball_x := ball_x e; ball_y := ball_y e; ball_velocity_x := v;
     ball_velocity_y := ball_velocity_y e; ball_speed := ball_speed e |}.

Definition set_ball_velocity_y (v : F) (e : GameEngine) : GameEngine :=
  {| room_code := room_code e; points_limit := points_limit e; status := status e;
     player1_ready := player1_ready e; player2_ready := player2_ready e;
     player1_connected := player1_connected e; player2_connected := player2_connected e;
     score_p1 := score_p1 e; score_p2 := score_p2 e; winner := winner e; p1_y := p1_y e;
     p2_y := p2_y e; p1_direction := p1_direction e; p2_direction := p2_direction e;
     ball_x := ball_x e; ball_y := ball_y e; ball_velocity_x := ball_velocity_x e;
     ball_velocity_y := v; ball_speed := ball_speed e |}.

Definition set_ball_speed (v : F) (e : GameEngine) : GameEngine :=
  {| room_code := room_code e; points_limit := points_limit e; status := status e;
     player1_ready := player1_ready e; player2_ready := player2_ready e;
     player1_connected := player1_connected e; player2_connected := player2_connected e;
     score_p1 := score_p1 e; score_p2 := score_p2 e; winner := winner e; p1_y := p1_y e;
     p2_y := p2_y e; p1_direction := p1_direction e; p2_direction := p2_direction e;
     ball_x := ball_x e; ball_y := ball_y e; ball_velocity_x := ball_velocity_x e;
     ball_velocity_y := ball_velocity_y e; ball_speed := v |}.

(** Class constants. *)
Definition FIELD_WIDTH : Z := 100.
Definition FIELD_HEIGHT : Z := 100.
Definition PADDLE_WIDTH : Z := 2.
Definition PADDLE_HEIGHT : Z := 20.
Definition BALL_SIZE : Z := 2.
Definition INITIAL_BALL_SPEED : F := dec 8 10.
Definition SPEED_INCREASE_FACTOR : F := dec 105 100.
Definition MAX_BALL_SPEED : F := of_int 3.
Definition PADDLE_SPEED : F := dec 15 10.

(** [__init__(room_code, points_limit)]. *)
Definition init (room : string) (limit : Z) : GameEngine :=
  {| room_code := room; points_limit := limit; status := waiting_for_opponent;
     player1_ready := false; player2_ready := false;
     player1_connected := false; player2_connected := false;
     score_p1 := 0; score_p2 := 0; winner := None;
     p1_y := of_int 50; p2_y := of_int 50;
     p1_direction := "stop"; p2_direction := "stop";
     ball_x := of_int 50; ball_y := of_int 50;
     ball_velocity_x := of_int 0; ball_velocity_y := of_int 0;
     ball_speed := INITIAL_BALL_SPEED |}.

Definition player_join (player_num : Z) (e : GameEngine) : bool * GameEngine :=
  if player_num =? 1 then
    let e := set_player1_connected true e in
    let e := if player2_connected e then set_status waiting_for_ready e else e in
    (true, e)
  else if player_num =? 2 then
    let e := set_player2_connected true e in
    let e := if player1_connected e then set_status waiting_for_ready e else e in
    (true, e)
  else (false, e).

Definition reset_ball (serve_to_player : Z) (e : GameEngine) (g : Rng)
  : GameEngine * Rng :=
  let e := set_ball_x (of_int 50) e in
  let e := set_ball_y (of_int 50) e in
  let e := set_ball_speed INITIAL_BALL_SPEED e in
  let direction : Z := if serve_to_player =? 2 then 1 else -1 in
  let '(angle, g) :=
    random_uniform (- math_pi / of_int 4)%py (math_pi / of_int 4)%py g in
  let e := set_ball_velocity_x (of_int direction * ball_speed e * math_cos angle)%py e in
  let e := set_ball_velocity_y (ball_speed e * math_sin angle)%py e in
  (e, g).

Definition start_game (e : GameEngine) (g : Rng) : GameEngine * Rng :=
  let e := set_status playing e in
  let '(serve_to, g) := random_choice [1; 2] g in
  reset_ball serve_to e g.

Definition player_ready (player_num : Z) (e : GameEngine) (g : Rng)
  : GameEngine * Rng :=
  let e := if player_num =? 1 then set_player1_ready true e
           else if player_num =? 2 then set_player2_ready true e
           else e in
  if player1_ready e && player2_ready e && Status_eqb (status e) waiting_for_ready
  then start_game e g
  else (e, g).

Definition set_paddle_direction (player_num : Z) (direction : string)
  (e : GameEngine) : GameEngine :=
  if player_num =? 1 then set_p1_direction direction e
  else if player_num =? 2 then set_p2_direction direction e
  else e.

Definition _update_paddles (delta_time : F) (e : GameEngine) : GameEngine :=
  let e := if String.eqb (p1_direction e) "up"
           then set_p1_y (p1_y e - PADDLE_SPEED)%py e
           else if String.eqb (p1_direction e) "down"
           then set_p1_y (p1_y e + PADDLE_SPEED)%py e
           else e in
  let e := if String.eqb (p2_direction e) "up"
           then set_p2_y (p2_y e - PADDLE_SPEED)%py e
           else if String.eqb (p2_direction e) "down"
           then set_p2_y (p2_y e + PADDLE_SPEED)%py e
           else e in
  let paddle_half_height := (of_int PADDLE_HEIGHT / of_int 2)%py in
  let e := set_p1_y
    (pymax paddle_half_height
       (pymin (of_int FIELD_HEIGHT - paddle_half_height)%py (p1_y e))) e in
  let e := set_p2_y
    (pymax paddle_half_height
       (pymin (of_int FIELD_HEIGHT - paddle_half_height)%py (p2_y e))) e in
  e.

Definition set_paddle_hit (v : bool) (ev : Events) : Events :=
  {| paddle_hit := v; wall_hit := wall_hit ev; score := score ev;
     game_over := game_over ev |}.

Definition set_wall_hit (v : bool) (ev : Events) : Events :=
  {| paddle_hit := paddle_hit ev; wall_hit := v; score := score ev;
     game_over := game_over ev |}.

Definition set_score (v : option Z) (ev : Events) : Events :=
  {| paddle_hit := paddle_hit ev; wall_hit := wall_hit ev; score := v;
     game_over := game_over ev |}.

Definition _check_paddle_collision (player_num : Z) (e : GameEngine) (ev : Events)
  : GameEngine * Events :=
  let '(paddle_x, paddle_y, ball_moving_towards_paddle) :=
    if player_num =? 1
    then (of_int PADDLE_WIDTH, p1_y e, (ball_velocity_x e <? of_int 0)%py)
    else (of_int (FIELD_WIDTH - PADDLE_WIDTH), p2_y e,
          (ball_velocity_x e >? of_int 0)%py) in
  if negb ball_moving_towards_paddle then (e, ev) else
  let ball_half_size := (of_int BALL_SIZE / of_int 2)%py in
  let paddle_half_height := (of_int PADDLE_HEIGHT / of_int 2)%py in
  let paddle_half_width := (of_int PADDLE_WIDTH / of_int 2)%py in
  let ball_left := (ball_x e - ball_half_size)%py in
  let ball_right := (ball_x e + ball_half_size)%py in
  let ball_top := (ball_y e - ball_half_size)%py in
  let ball_bottom := (ball_y e + ball_half_size)%py in
  let paddle_left := (paddle_x - paddle_half_width)%py in
  let paddle_right := (paddle_x + paddle_half_width)%py in
  let paddle_top := (paddle_y - paddle_half_height)%py in
  let paddle_bottom := (paddle_y + paddle_half_height)%py in
  if (ball_right >=? paddle_left)%py && (ball_left <=? paddle_right)%py &&
     (ball_bottom >=? paddle_top)%py && (ball_top <=? paddle_bottom)%py
  then
    let ev := set_paddle_hit true ev in
    let e := set_ball_velocity_x (- ball_velocity_x e)%py e in
    let hit_pos := ((ball_y e - paddle_y) / paddle_half_height)%py in
    let e := set_ball_velocity_y (ball_velocity_y e + hit_pos * dec 5 10)%py e in
    let current_speed :=
      fsqrt (pow2 (ball_velocity_x e) + pow2 (ball_velocity_y e))%py in
    let new_speed := pymin (current_speed * SPEED_INCREASE_FACTOR)%py MAX_BALL_SPEED in
    let e :=
      if (current_speed >? of_int 0)%py then
        let e := set_ball_velocity_x (ball_velocity_x e / current_speed * new_speed)%py e in
        set_ball_velocity_y (ball_velocity_y e / current_speed * new_speed)%py e
      else e in
    let e :=
      if player_num =? 1
      then set_ball_x (paddle_right + ball_half_size + dec 1 10)%py e
      else set_ball_x (paddle_left - ball_half_size - dec 1 10)%py e in
    (e, ev)
  else (e, ev).

Definition _handle_score (e : GameEngine) (g : Rng) : GameEngine * Rng :=
  if score_p1 e >=? points_limit e then
    (set_status finished (set_winner (Some "Player 1") e), g)
  else if score_p2 e >=? points_limit e then
    (set_status finished (set_winner (Some "Player 2") e), g)
  else
    let serve_to : Z := if score_p2 e >? score_p1 e then 1 else 2 in
    reset_ball serve_to e g.

Definition _update_ball (delta_time : F) (e : GameEngine) (ev : Events) (g : Rng)
  : GameEngine * Events * Rng :=
  let e := set_ball_x (ball_x e + ball_velocity_x e)%py e in
  let e := set_ball_y (ball_y e + ball_velocity_y e)%py e in
  let ball_half_size := (of_int BALL_SIZE / of_int 2)%py in
  let '(e, ev) :=
    if (ball_y e - ball_half_size <=? of_int 0)%py then
      let e := set_ball_y ball_half_size e in
      let e := set_ball_velocity_y (fabs (ball_velocity_y e)) e in
      (e, set_wall_hit true ev)
    else if (ball_y e + ball_half_size >=? of_int FIELD_HEIGHT)%py then
      let e := set_ball_y (of_int FIELD_HEIGHT - ball_half_size)%py e in
      let e := set_ball_velocity_y (- fabs (ball_velocity_y e))%py e in
      (e, set_wall_hit true ev)
    else (e, ev) in
  let '(e, ev) := _check_paddle_collision 1 e ev in
  let '(e, ev) := _check_paddle_collision 2 e ev in
  if (ball_x e <=? of_int 0)%py then
    let e := set_score_p2 (score_p2 e + 1) e in
    let ev := set_score (Some 2) ev in
    let '(e, g) := _handle_score e g in
    (e, ev, g)
  else if (ball_x e >=? of_int FIELD_WIDTH)%py then
    let e := set_score_p1 (score_p1 e + 1) e in
    let ev := set_score (Some 1) ev in
    let '(e, g) := _handle_score e g in
    (e, ev, g)
  else (e, ev, g).

Definition no_events : Events :=
  {| paddle_hit := false; wall_hit := false; score := None; game_over := false |}.

Definition update (delta_time : F) (e : GameEngine) (g : Rng)
  : Events * GameEngine * Rng :=
  let events := no_events in
  if negb (Status_eqb (status e) playing) then (events, e, g) else
  let e := _update_paddles delta_time e in
  let '(e, events, g) := _update_ball delta_time e events g in
  (events, e, g).

(** *** Sequences of operations

    The engine's global state is the pair of its attributes and of the state
    of the random generator; an operation of the class maps one such pair to
    the next. *)
Inductive Op :=
| OpJoin (player_num : Z)
| OpReady (player_num : Z)
| OpDirection (player_num : Z) (direction : string)
| OpUpdate (delta_time : F)
| OpStart.

Definition apply_op (o : Op) (w : GameEngine * Rng) : GameEngine * Rng :=
  let '(e, g) := w in
  match o with
  | OpJoin n => (snd (player_join n e), g)
  | OpReady n => player_ready n e g
  | OpDirection n d => (set_paddle_direction n d e, g)
  | OpUpdate dt => let '(_, e, g) := update dt e g in (e, g)
  | OpStart => start_game e g
  end.

Definition run (ops : list Op) (w : GameEngine * Rng) : GameEngine * Rng :=
  fold_left (fun w o => apply_op o w) ops w.

(** The position of a status along
    waiting_for_opponent, waiting_for_ready, playing, finished. *)
Definition rank (s : Status) : nat :=
  match s with
  | waiting_for_opponent => 0
  | waiting_for_ready => 1
  | playing => 2
  | finished => 3
  end.

(** The magnitude of the ball's velocity vector. *)
Definition speed (e : GameEngine) : F :=
  fsqrt (pow2 (ball_velocity_x e) + pow2 (ball_velocity_y e))%py.

(** The attributes that the rules of the match read and write, and the
    positions of the two paddles. *)
Definition rules (e : GameEngine) : Status * Z * Z * Z * option string :=
  (status e, points_limit e, score_p1 e, score_p2 e, winner e).

Definition paddles (e : GameEngine) : F * F := (p1_y e, p2_y e).

(** [half_paddle_height <= y <= field_height - half_paddle_height], as the
    comparisons of the language decide it. *)
Definition in_paddle_range (y : F) : Prop :=
  let paddle_half_height := (of_int PADDLE_HEIGHT / of_int 2)%py in
  (paddle_half_height <=? y)%py = true /\
  (y <=? of_int FIELD_HEIGHT - paddle_half_height)%py = true.

(** The operations of a match in play: ticks and paddle inputs. *)
Definition play_op (o : Op) : Prop :=
  match o with
  | OpUpdate _ | OpDirection _ _ => True
  | _ => False
  end.

(** The order of a match: players join before play begins, and
    [start_game] is not called on a finished match. *)
Definition op_in_order (s : Status) (o : Op) : Prop :=
  match o with
  | OpJoin _ => s = waiting_for_opponent \/ s = waiting_for_ready
  | OpStart => s <> finished
  | OpReady _ | OpDirection _ _ | OpUpdate _ => True
  end.

Fixpoint orderly (ops : list Op) (w : GameEngine * Rng) : Prop :=
  match ops with
  | [] => True
  | o :: ops => op_in_order (status (fst w)) o /\ orderly ops (apply_op o w)
  end.

(** What holds of a match with point limit [L] from its start to its end:
    in play no score has reached [L] and there is no winner; once finished
    the score of exactly one player is [L] and that player is the winner. *)
Definition match_invariant (L : Z) (e : GameEngine) : Prop :=
  points_limit e = L /\ 0 <= score_p1 e /\ 0 <= score_p2 e /\
  ((status e = playing /\ score_p1 e < L /\ score_p2 e < L /\ winner e = None) \/
   (status e = finished /\ score_p1 e = L /\ score_p2 e < L /\
    winner e = Some "Player 1") \/
   (status e = finished /\ score_p2 e = L /\ score_p1 e < L /\
    winner e = Some "Player 2")).

(** A match that has just started: in play, no point scored. *)
Definition fresh_playing (e : GameEngine) : Prop :=
  status e = playing /\ score_p1 e = 0 /\ score_p2 e = 0 /\ winner e = None.

(** An observation of the engine that does not read the ball. *)
Definition ball_blind {A : Type} (f : GameEngine -> A) : Prop :=
  forall (v : F) (e : GameEngine),
    f (set_ball_x v e) = f e /\ f (set_ball_y v e) = f e /\
    f (set_ball_velocity_x v e) = f e /\ f (set_ball_velocity_y v e) = f e /\
    f (set_ball_speed v e) = f e.

(** The room code and the four flags of the players. *)
Definition flags (e : GameEngine) : string * bool * bool * bool * bool :=
  (room_code e, player1_ready e, player2_ready e,
   player1_connected e, player2_connected e).

(** What no operation undoes: the room code and the point limit are kept,
    a slot once connected or ready stays so, no score goes down and a
    winner once named is not unnamed. *)
Definition never_undone (e e' : GameEngine) : Prop :=
  room_code e' = room_code e /\ points_limit e' = points_limit e /\
  (player1_connected e = true -> player1_connected e' = true) /\
  (player2_connected e = true -> player2_connected e' = true) /\
  (player1_ready e = true -> player1_ready e' = true) /\
  (player2_ready e = true -> player2_ready e' = true) /\
  score_p1 e <= score_p1 e' /\ score_p2 e <= score_p2 e' /\
  (winner e <> None -> winner e' <> None).

(** The values of the dicts that the engine hands to the consumer, and the
    [str] that a status is. *)
#[local] Unset Elimination Schemes.
Inductive Value :=
| VNone
| VStr (s : string)
| VInt (z : Z)
| VFloat (x : F)
| VList (items : list Value).
#[local] Set Elimination Schemes.

Definition status_str (s : Status) : string :=
  match s with
  | waiting_for_opponent => "waiting_for_opponent"
  | waiting_for_ready => "waiting_for_ready"
  | playing => "playing"
  | finished => "finished"
  end.

Definition str_or_none (s : option string) : Value :=
  match s with
  | Some s => VStr s
  | None => VNone
  end.

(** [round(number, ndigits)] of the language, on floats. *)
Variable round : F -> Z -> F.

Definition get_state (e : GameEngine) : list (string * Value) :=
  [("type", VStr "game_update");
   ("status", VStr (status_str (status e)));
   ("p1_y", VFloat (round (p1_y e) 2));
   ("p2_y", VFloat (round (p2_y e) 2));
   ("ball_x", VFloat (round (ball_x e) 2));
   ("ball_y", VFloat (round (ball_y e) 2));
   ("score_p1", VInt (score_p1 e));
   ("score_p2", VInt (score_p2 e));
   ("winner", str_or_none (winner e))].

Definition get_game_over_data (e : GameEngine) : list (string * Value) :=
  [("type", VStr "game_over");
   ("winner", str_or_none (winner e));
   ("final_score", VList [VInt (score_p1 e); VInt (score_p2 e)]);
   ("room_code", VStr (room_code e));
   ("points_limit", VInt (points_limit e))].

End Engine.

End game_engine.

(** ** models.py *)

Module models.

(** The fields that [save_match_history] gives to a row of [MatchHistory];
    [created_at] is filled in by the clock. *)
Record MatchHistory := {
  room_code : string;
  player1_score : Z;
  player2_score : Z;
  winner : option string;
  points_limit : Z
}.

End models.

(** ** consumers.py *)

Module consumers.
Import game_engine.

(** A value that [json.loads] returns. *)
#[local] Unset Elimination Schemes.
Inductive json :=
| JNull
| JBool (b : bool)
| JInt (z : Z)
| JStr (s : string)
| JArr (items : list json)
| JObj (members : list (string * json)).
#[local] Set Elimination Schemes.

(** [v == s] for a JSON value [v] and a [str] literal [s]. *)
Definition json_eq_str (v : json) (s : string) : bool :=
  match v with
  | JStr t => String.eqb t s
  | _ => false
  end.

(** [data.get(key, default)] on the dict of a decoded message. *)
Definition dict_get (data : gmap string json) (key : string) (default : json) : json :=
  match data !! key with
  | Some v => v
  | None => default
  end.

(** The outcome of a handler: it returns, or an exception propagates to
    [receive], which answers it with an [error] message. *)
Inductive Result (A : Type) :=
| Ok (a : A)
| Raise (exc : string).
Arguments Ok {A} a.
Arguments Raise {A} exc.

(** Messages from the server, and the two ways of sending one. *)
Inductive Message :=
| joined_as_observer (room_code : string)
| joined_as_player (player_num : option Z) (room_code : string)
| status_change (status : Status)
| error (message : string).

Inductive Effect :=
| send (m : Message)
| group_send (group : string) (m : Message).

(** The attributes of one [PongConsumer]. *)
Record Consumer := {
  room_code : string;
  room_group_name : string;
  role : option string;
  player_num : option Z;
  channel_name : string
}.

Definition set_role (v : option string) (c : Consumer) : Consumer :=
  {| room_code := room_code c; room_group_name := room_group_name c; role := v;
     player_num := player_num c; channel_name := channel_name c |}.

Definition set_player_num (v : option Z) (c : Consumer) : Consumer :=
  {| room_code := room_code c; room_group_name := room_group_name c; role := role c;
     player_num := v; channel_name := channel_name c |}.

(** The handle of a simulation task: whether it is done. *)
Record Task := { done_ : bool }.

Section Consumers.
Context {F : Type} `{PyFloat F} `{PyRuntime F}.

(** One entry of [ACTIVE_ROOMS]. *)
Record Room := {
  engine : option (@GameEngine F);
  task : option Task;
  players : gmap Z string;
  observers : list string
}.

Definition set_engine (v : option (@GameEngine F)) (r : Room) : Room :=
  {| engine := v; task := task r; players := players r; observers := observers r |}.

Definition set_players (v : gmap Z string) (r : Room) : Room :=
  {| engine := engine r; task := task r; players := v; observers := observers r |}.

Definition set_observers (v : list string) (r : Room) : Room :=
  {| engine := engine r; task := task r; players := players r; observers := v |}.

(** The room that [connect] registers for a code that has none. *)
Definition new_room : Room :=
  {| engine := None; task := None; players := ∅; observers := [] |}.

(** [handle_join_game(data)]: the consumer, the registry and the messages
    sent, in order.  The engine of the room is an object shared by the
    registry and the handler: it is written back once the handler is done
    with it. *)
Definition handle_join_game (data : gmap string json) (self : Consumer)
  (ACTIVE_ROOMS : gmap string Room)
  : Result (Consumer * gmap string Room * list Effect) :=
  let role_ := dict_get data "role" (JStr "player") in
  match ACTIVE_ROOMS !! room_code self with
  | None => Ok (self, ACTIVE_ROOMS, [send (error "Room does not exist")])
  | Some room =>
    let engine_ :=
      match engine room with
      | None => init (room_code self) 5
      | Some e => e
      end in
    let '(self, room, engine_, role_) :=
      if json_eq_str role_ "player" then
        if bool_decide (players room !! 1 = None) then
          let self := set_player_num (Some 1) self in
          let room := set_players (<[1 := channel_name self]> (players room)) room in
          (self, room, snd (player_join 1 engine_), role_)
        else if bool_decide (players room !! 2 = None) then
          let self := set_player_num (Some 2) self in
          let room := set_players (<[2 := channel_name self]> (players room)) room in
          (self, room, snd (player_join 2 engine_), role_)
        else (self, room, engine_, JStr "observer")
      else (self, room, engine_, role_) in
    let '(self, room, ack) :=
      if json_eq_str role_ "observer" then
        (set_role (Some "observer") self,
         set_observers (observers room ++ [channel_name self]) room,
         send (joined_as_observer (room_code self)))
      else
        (set_role (Some "player") self, room,
         send (joined_as_player (player_num self) (room_code self))) in
    let room := set_engine (Some engine_) room in
    Ok (self, <[room_code self := room]> ACTIVE_ROOMS,
        [ack; group_send (room_group_name self) (status_change (status engine_))])
  end.

(** [handle_move_paddle(data)].  A consumer whose [player_num] is [None] or
    [0] is not a player; a direction that is not a [str] is in no list of
    [str]. *)
Definition handle_move_paddle (data : gmap string json) (self : Consumer)
  (ACTIVE_ROOMS : gmap string Room)
  : Result (Consumer * gmap string Room * list Effect) :=
  let unchanged := Ok (self, ACTIVE_ROOMS, []) in
  if negb (bool_decide (role self = Some "player")) then unchanged else
  match player_num self with
  | None => unchanged
  | Some n =>
    if n =? 0 then unchanged else
    match ACTIVE_ROOMS !! room_code self with
    | None => unchanged
    | Some room =>
      match engine room with
      | None => Raise "'NoneType' object has no attribute 'status'"
      | Some engine_ =>
        if negb (Status_eqb (status engine_) playing) then unchanged else
        match dict_get data "direction" (JStr "stop") with
        | JStr direction =>
          if negb (existsb (String.eqb direction) ["up"; "down"; "stop"])
          then unchanged
          else
            let engine_ := set_paddle_direction n direction engine_ in
            Ok (self,
                <[room_code self := set_engine (Some engine_) room]> ACTIVE_ROOMS,
                [])
        | _ => unchanged
        end
      end
    end
  end.



End Consumers.

(** What [connect] and [disconnect] do besides writing to the consumer and
    to the registry: calls of the channel layer, of the socket and of the
    task of the room. *)
Inductive Action :=
| group_add (group channel : string)
| group_discard (group channel : string)
| accept
| cancel (room_code : string)
| player_disconnected (group : string) (player_num : Z).

Section Lifecycle.
Context {F : Type} `{PyFloat F} `{PyRuntime F}.
Variable round : F -> Z -> F.

Definition set_task (v : option Task) (r : @Room F) : @Room F :=
  {| engine := engine r; task := v; players := players r; observers := observers r |}.

(** [room["task"] and not room["task"].done()]. *)
Definition running (t : option Task) : bool :=
  match t with
  | Some t => negb (done_ t)
  | None => false
  end.

(** [l.remove(x)] where [x in l]: [l] without the first [x]. *)
Fixpoint list_remove (x : string) (l : list string) : list string :=
  match l with
  | [] => []
  | y :: l => if String.eqb y x then l else y :: list_remove x l
  end.

(** [self.role == "player" and self.player_num]: the number of a consumer
    that plays, a [player_num] of [None] or [0] being false. *)
Definition playing_as (self : Consumer) : option Z :=
  if bool_decide (role self = Some "player") then
    match player_num self with
    | Some n => if n =? 0 then None else Some n
    | None => None
    end
  else None.

(** [connect()], for the room code of the URL; the channel layer has named
    the channel of the consumer. *)
Definition connect (url_room_code : string) (self : Consumer)
  (ACTIVE_ROOMS : gmap string (@Room F))
  : Consumer * gmap string (@Room F) * list Action :=
  let self := {| room_code := url_room_code;
                 room_group_name := "pong_" +:+ url_room_code;
                 role := None; player_num := None;
                 channel_name := channel_name self |} in
  let actions := [group_add (room_group_name self) (channel_name self); accept] in
  if bool_decide (ACTIVE_ROOMS !! room_code self = None)
  then (self, <[room_code self := new_room]> ACTIVE_ROOMS, actions)
  else (self, ACTIVE_ROOMS, actions).

(** [disconnect(close_code)].  A task that [cancel] has been called on is
    not done until the loop has run it again, so that a player who leaves
    a room empty cancels its task twice. *)
Definition disconnect (close_code : Z) (self : Consumer)
  (ACTIVE_ROOMS : gmap string (@Room F))
  : Consumer * gmap string (@Room F) * list Action :=
  let discard := group_discard (room_group_name self) (channel_name self) in
  match ACTIVE_ROOMS !! room_code self with
  | None => (self, ACTIVE_ROOMS, [discard])
  | Some room =>
    let '(room, actions) :=
      match playing_as self with
      | Some n =>
        let room :=
          if bool_decide (is_Some (players room !! n))
          then set_players (delete n (players room)) room
          else room in
        (room,
         (if running (task room) then [cancel (room_code self)] else [])
         ++ [player_disconnected (room_group_name self) n])
      | None =>
        if bool_decide (role self = Some "observer") then
          if existsb (String.eqb (channel_name self)) (observers room)
          then (set_observers (list_remove (channel_name self) (observers room)) room, [])
          else (room, [])
        else (room, [])
      end in
    if bool_decide (players room = ∅) && bool_decide (observers room = []) then
      (self, delete (room_code self) ACTIVE_ROOMS,
       discard :: actions
       ++ (if running (task room) then [cancel (room_code self)] else []))
    else
      (self, <[room_code self := room]> ACTIVE_ROOMS, discard :: actions)
  end.

(** [handle_player_ready()], with the state of the random generator that
    the engine draws from when the match starts.  The task that
    [asyncio.create_task] returns is not done. *)
Definition handle_player_ready (self : Consumer) (ACTIVE_ROOMS : gmap string (@Room F))
  (g : Rng)
  : Result (Consumer * gmap string (@Room F) * Rng * list Effect) :=
  let unchanged := Ok (self, ACTIVE_ROOMS, g, []) in
  match playing_as self with
  | None => unchanged
  | Some n =>
    match ACTIVE_ROOMS !! room_code self with
    | None => unchanged
    | Some room =>
      match engine room with
      | None => Raise "'NoneType' object has no attribute 'player_ready'"
      | Some engine_ =>
        let '(engine_, g) := player_ready n engine_ g in
        let room := set_engine (Some engine_) room in
        let room :=
          if Status_eqb (status engine_) playing && negb (running (task room))
          then set_task (Some {| done_ := false |}) room
          else room in
        Ok (self, <[room_code self := room]> ACTIVE_ROOMS, g,
            [group_send (room_group_name self) (status_change (status engine_))])
      end
    end
  end.

(** What the simulation loop sends to the group of the room, and the row
    that it saves. *)
Inductive Broadcast :=
| game_update (state : list (string * @Value F))
| save_match_history (row : models.MatchHistory)
| game_over (data : list (string * @Value F)).

Definition tick_rate : F := (of_int 1 / of_int 60)%py.

Definition match_history (e : @GameEngine F) : models.MatchHistory :=
  {| models.room_code := game_engine.room_code e;
     models.player1_score := score_p1 e;
     models.player2_score := score_p2 e;
     models.winner := winner e;
     models.points_limit := points_limit e |}.


(** The [while] loop of [game_loop] on the engine of the room.  While the
    loop sleeps the handlers of the room work on the same engine: [sleeps]
    lists their operations, sleep by sleep.  The result is what the loop
    has sent, the engine, and whether the loop has ended; when the sleeps
    are used up the loop is asleep still. *)
Fixpoint simulation (sleeps : list (list Op)) (e : @GameEngine F) (g : Rng)
  : list Broadcast * (@GameEngine F * Rng) * bool :=
  if negb (Status_eqb (status e) playing) then ([], (e, g), true) else
  let '(events, e, g) := update tick_rate e g in
  let state := game_update (get_state round e) in
  if Status_eqb (status e) finished then
    ([state; save_match_history (match_history e);
      game_over (get_game_over_data e)], (e, g), true)
  else
    match sleeps with
    | [] => ([state], (e, g), false)
    | ops :: sleeps =>
      let '(sent, w, ended) :=
        simulation sleeps (fst (run ops (e, g))) (snd (run ops (e, g))) in
      (state :: sent, w, ended)
    end.

(** [game_loop()]: the loop on the engine that the room has when the task
    starts. *)
Definition game_loop (sleeps : list (list Op)) (self : Consumer)
  (ACTIVE_ROOMS : gmap string (@Room F)) (g : Rng)
  : Result (list Broadcast * option (@GameEngine F) * Rng * bool) :=
  match ACTIVE_ROOMS !! room_code self with
  | None => Ok ([], None, g, true)
  | Some room =>
    match engine room with
    | None => Raise "'NoneType' object has no attribute 'status'"
    | Some engine_ =>
      let '(sent, (engine_, g), ended) := simulation sleeps engine_ g in
      Ok (sent, Some engine_, g, ended)
    end
  end.

(** The server: the registry, the consumers that are connected, by channel
    name, and the random generator of the process. *)
Record Server := {
  active_rooms : gmap string (@Room F);
  sockets : gmap string Consumer;
  rng : Rng
}.

Definition empty_server (g : Rng) : Server :=
  {| active_rooms := ∅; sockets := ∅; rng := g |}.

(** What happens to the server, one thing at a time: a socket opens, a
    message of a socket is handled, a socket closes, the loop of a room
    runs one update, the task of a room is done. *)
Inductive Incident :=
| Opens (channel url_room_code : string)
| JoinGame (channel : string) (data : gmap string json)
| PlayerReady (channel : string)
| MovePaddle (channel : string) (data : gmap string json)
| Closes (channel : string) (close_code : Z)
| LoopUpdates (room_code : string)
| TaskDone (room_code : string).

(** An exception of a handler leaves the server as it was: [receive]
    answers it with an error message. *)
Definition serve (s : Server) (i : Incident) : Server :=
  match i with
  | Opens channel url_room_code =>
    let self := {| room_code := ""; room_group_name := ""; role := None;
                   player_num := None; channel_name := channel |} in
    let '(self, rooms, _) := connect url_room_code self (active_rooms s) in
    {| active_rooms := rooms; sockets := <[channel := self]> (sockets s); rng := rng s |}
  | JoinGame channel data =>
    match sockets s !! channel with
    | None => s
    | Some self =>
      match handle_join_game data self (active_rooms s) with
      | Ok (self, rooms, _) =>
        {| active_rooms := rooms; sockets := <[channel := self]> (sockets s);
           rng := rng s |}
      | Raise _ => s
      end
    end
  | PlayerReady channel =>
    match sockets s !! channel with
    | None => s
    | Some self =>
      match handle_player_ready self (active_rooms s) (rng s) with
      | Ok (self, rooms, g, _) =>
        {| active_rooms := rooms; sockets := <[channel := self]> (sockets s); rng := g |}
      | Raise _ => s
      end
    end
  | MovePaddle channel data =>
    match sockets s !! channel with
    | None => s
    | Some self =>
      match handle_move_paddle data self (active_rooms s) with
      | Ok (self, rooms, _) =>
        {| active_rooms := rooms; sockets := <[channel := self]> (sockets s);
           rng := rng s |}
      | Raise _ => s
      end
    end
  | Closes channel close_code =>
    match sockets s !! channel with
    | None => s
    | Some self =>
      let '(_, rooms, _) := disconnect close_code self (active_rooms s) in
      {| active_rooms := rooms; sockets := delete channel (sockets s); rng := rng s |}
    end
  | LoopUpdates code =>
    match active_rooms s !! code with
    | None => s
    | Some room =>
      match engine room with
      | None => s
      | Some engine_ =>
        let '(_, engine_, g) := update tick_rate engine_ (rng s) in
        {| active_rooms := <[code := set_engine (Some engine_) room]> (active_rooms s);
           sockets := sockets s; rng := g |}
      end
    end
  | TaskDone code =>
    match active_rooms s !! code with
    | None => s
    | Some room =>
      match task room with
      | None => s
      | Some _ =>
        {| active_rooms :=
             <[code := set_task (Some {| done_ := true |}) room]> (active_rooms s);
           sockets := sockets s; rng := rng s |}
      end
    end
  end.

Definition history (l : list Incident) (s : Server) : Server :=
  fold_left serve l s.

(** The engine of a room of the server, if the room is registered and has
    one. *)
Definition engine_of (s : Server) (code : string) : option (@GameEngine F) :=
  match active_rooms s !! code with
  | Some room => engine room
  | None => None
  end.

(** The seats of the server: a socket is filed under the name of its
    channel; the number of a consumer names a slot of its room, which holds
    the channel of that consumer; the slots of a room are 1 and 2, and a
    room with a player has an engine. *)
Definition seated (s : Server) : Prop :=
  (forall ch c, sockets s !! ch = Some c -> channel_name c = ch) /\
  (forall ch c n, sockets s !! ch = Some c -> player_num c = Some n ->
     exists room, active_rooms s !! room_code c = Some room /\
                  players room !! n = Some ch) /\
  (forall code room, active_rooms s !! code = Some room ->
     (forall n, is_Some (players room !! n) -> n = 1 \/ n = 2) /\
     (players room <> ∅ -> engine room <> None)).

End Lifecycle.


End consumers.

(** ** A deterministic runtime and concrete matches

    The examples below run the engine on binary64 numbers with a stand-in for
    the runtime: draws are taken in turn from a fixed sequence, the cosine
    and the sine are their Taylor polynomials of degree 10 and 11, accurate
    to 1e-9 on the serve angles (between -pi/4 and pi/4), and [x ** 2] is
    the rounded product [x * x], from which the power of a C library may
    differ in the last place. *)

Module scenario.
Import game_engine consumers.

Definition cos_taylor (x : float) : float :=
  let x2 := (x * x)%float in
  (1 - x2 / 2 * (1 - x2 / 12 * (1 - x2 / 30 * (1 - x2 / 56 * (1 - x2 / 90)))))%float.

Definition sin_taylor (x : float) : float :=
  let x2 := (x * x)%float in
  (x * (1 - x2 / 6 * (1 - x2 / 20 * (1 - x2 / 42 * (1 - x2 / 72 * (1 - x2 / 110))))))%float.

(** The [n]-th value of [random.random()]: 7/8, 2/8, 5/8, 0, 3/8, ... *)
Definition unit_draw (n : nat) : float :=
  dec ((7 + 3 * Z.of_nat n) mod 8) 8.

#[export] Instance fixed_runtime : PyRuntime float := {|
  Rng := nat;
  random_choice := fun l n => (nth (n mod length l) l 0, S n);
  random_uniform := fun a b n => ((a + (b - a) * unit_draw n)%float, S n);
  math_pi := 0x1.921fb54442d18p+1%float;
  math_cos := cos_taylor;
  math_sin := sin_taylor;
  pow2 := fun x => (x * x)%float
|}.

(** A match in play with the given scores, the ball at [(x, y)] moving
    with velocity [(vx, vy)], both paddles centred and at rest. *)
Definition rally (limit s1 s2 : Z) (x y vx vy : float) : @GameEngine float :=
  {| game_engine.room_code := "ROOM"; points_limit := limit; status := playing;
     player1_ready := true; player2_ready := true;
     player1_connected := true; player2_connected := true;
     score_p1 := s1; score_p2 := s2; winner := None;
     p1_y := of_int 50; p2_y := of_int 50;
     p1_direction := "stop"; p2_direction := "stop";
     ball_x := x; ball_y := y; ball_velocity_x := vx; ball_velocity_y := vy;
     ball_speed := INITIAL_BALL_SPEED |}.

(** One tick of the simulation loop: [1 / 60]. *)
Definition tick : float := dec 1 60.

(** The generator before its first draw, and new engines with a limit of
    five points and of one point. *)
Definition seed : @Rng float fixed_runtime := 0%nat.

Definition new_match : @GameEngine float * @Rng float fixed_runtime :=
  (init "ROOM" 5, seed).

Definition short_match : @GameEngine float * @Rng float fixed_runtime :=
  (init "ROOM" 1, seed).

(** The operations of the engine from creation to play. *)
Definition both_ready : list (@Op float) := [OpJoin 1; OpJoin 2; OpReady 1; OpReady 2].

(** Player 2 leads 2-0 and the ball is about to cross player 2's goal line,
    clear of the paddle: player 1 scores. *)
Definition p1_scores_behind : @GameEngine float := rally 5 0 2 99 10 (dec 15 10) 0.

(** Player 1 leads 1-0 and the ball is about to cross player 1's goal line:
    player 2 scores and ties the match. *)
Definition p2_scores_tie : @GameEngine float := rally 5 1 0 1 10 (- dec 15 10)%py 0.

(** Player 1 has 4 points of 5 and scores. *)
Definition p1_scores_last : @GameEngine float := rally 5 4 0 99 10 (dec 15 10) 0.

(** The ball, at speed 0.5, meets player 1's paddle 5 units below its
    centre. *)
Definition off_centre_hit : @GameEngine float :=
  rally 5 0 0 (dec 44 10) 55 (- dec 5 10)%py 0.

(** The states that tests/unit/test_engine.py builds: [start_game] on a new
    engine, then attributes assigned by hand. *)
Definition started (room : string) (limit : Z) : @GameEngine float :=
  fst (start_game (init room limit) seed).

Definition with_ball (x y vx vy : float) (e : @GameEngine float) : @GameEngine float :=
  set_ball_velocity_y vy (set_ball_velocity_x vx (set_ball_y y (set_ball_x x e))).

Definition test_paddle_boundary_top : @GameEngine float :=
  set_paddle_direction 1 "up" (set_p1_y 15%float (started "TEST008" 5)).

Definition test_paddle_boundary_bottom : @GameEngine float :=
  set_paddle_direction 1 "down" (set_p1_y 85%float (started "TEST009" 5)).

Definition test_speed_increase_on_hit : @GameEngine float :=
  with_ball 3 50 (- dec 5 10)%py 0 (set_p1_y 50%float (started "TEST014" 5)).

Definition test_score_p2 : @GameEngine float :=
  with_ball 3 10 (- dec 15 10)%py 0 (set_p1_y 50%float (started "TEST017" 5)).

Definition test_winning_condition_5 : @GameEngine float :=
  with_ball 95 10 (dec 15 10) 0 (set_p2_y 50%float (set_score_p1 4 (started "TEST019" 5))).

Definition test_winning_condition_20 : @GameEngine float :=
  with_ball 3 10 (- dec 15 10)%py 0
    (set_p1_y 50%float (set_score_p2 19 (started "TEST020" 20))).

Definition updates (n : nat) : list (@Op float) := repeat (OpUpdate tick) n.

(** A room in play with its two players, a third connection, and the
    registry that holds the room. *)
Definition alice : Consumer :=
  {| consumers.room_code := "ROOM"; room_group_name := "pong_ROOM";
     role := Some "player"; player_num := Some 1; channel_name := "chan.alice" |}.

Definition carol : Consumer :=
  {| consumers.room_code := "ROOM"; room_group_name := "pong_ROOM";
     role := None; player_num := None; channel_name := "chan.carol" |}.

Definition centre_serve : @GameEngine float := rally 5 0 0 50 50 (dec 8 10) 0.

Definition room_in_play : @Room float :=
  {| engine := Some centre_serve;
     task := Some {| done_ := false |};
     players := <[1 := "chan.alice"]> (<[2 := "chan.bob"]> ∅);
     observers := [] |}.

Definition registry : gmap string (@Room float) := <["ROOM" := room_in_play]> ∅.

(** A stand-in for [round] in the examples: the number itself. *)
Definition unrounded (x : float) (ndigits : Z) : float := x.

(** A registry whose only room nobody has joined, and a server on which
    one socket has opened and asked to play. *)
Definition lobby : gmap string (@Room float) := <["ROOM" := new_room]> ∅.

Definition opening : list Incident := [Opens "chan.alice" "ROOM"; JoinGame "chan.alice" ∅].



(** The second player of the room; player 2 has 4 points of 5 and the ball
    is about to cross player 1's goal line; the server at that moment. *)
Definition bob : Consumer :=
  {| consumers.room_code := "ROOM"; room_group_name := "pong_ROOM";
     role := Some "player"; player_num := Some 2; channel_name := "chan.bob" |}.

Definition p2_scores_last : @GameEngine float := rally 5 0 4 1 10 (- dec 15 10)%py 0.

Definition last_point : @Server float fixed_runtime :=
  {| active_rooms :=
       <["ROOM" := {| engine := Some p2_scores_last;
                      task := Some {| done_ := false |};
                      players := <[1 := "chan.alice"]> (<[2 := "chan.bob"]> ∅);
                      observers := [] |}]> ∅;
     sockets := <["chan.alice" := alice]> (<["chan.bob" := bob]> ∅);
     rng := seed |}.

(** The loop plays the last point and ends; then player 1 leaves and a new
    socket asks to play. *)
Definition match_ends : list Incident := [LoopUpdates "ROOM"; TaskDone "ROOM"].

Definition rejoin : list Incident :=
  [Closes "chan.alice" 1000; Opens "chan.carol" "ROOM"; JoinGame "chan.carol" ∅].

End scenario.

(** * Properties *)

(** ** The comparisons of binary64 numbers *)

Lemma float_ltb_leb (a b : float) : PrimFloat.ltb a b = true -> PrimFloat.leb a b = true.
Proof.
  rewrite ltb_spec, leb_spec. unfold SFltb, SFleb.
  destruct (SFcompare (Prim2SF a) (Prim2SF b)) as [[]|]; congruence.
Qed.

#[export] Instance float_laws : PyFloatLaws float.
Proof. constructor. exact float_ltb_leb. Qed.

(** [max(lo, min(hi, y))] lies between [lo] and [hi], whatever [y] is
    (a NaN included: no comparison with it holds, and the result is [hi]). *)
Lemma clamp_in_range {F : Type} `{PyFloatLaws F} (lo hi y : F) :
  (lo <=? lo)%py = true -> (lo <=? hi)%py = true -> (hi <=? hi)%py = true ->
  (lo <=? pymax lo (pymin hi y))%py = true /\ (pymax lo (pymin hi y) <=? hi)%py = true.
Proof.
  intros Hll Hlh Hhh. unfold pymax, pymin.
  destruct (y <? hi)%py eqn:Eyh.
  - destruct (lo <? y)%py eqn:Ely.
    + split; apply fltb_fleb; assumption.
    + split; assumption.
  - destruct (lo <? hi)%py eqn:Elh; split; assumption.
Qed.

Module engine_facts.
Import game_engine.

Section Frames.
Context {F : Type} `{PyFloat F} `{PyRuntime F}.
Implicit Types (e : @GameEngine F) (g : Rng) (ev : Events).

Lemma reset_ball_rules n e g : rules (fst (reset_ball n e g)) = rules e.
Proof. unfold reset_ball. destruct (random_uniform _ _ g). reflexivity. Qed.

Lemma reset_ball_paddles n e g : paddles (fst (reset_ball n e g)) = paddles e.
Proof. unfold reset_ball. destruct (random_uniform _ _ g). reflexivity. Qed.

Lemma reset_ball_position n e g :
  ball_x (fst (reset_ball n e g)) = of_int 50 /\ ball_y (fst (reset_ball n e g)) = of_int 50.
Proof. unfold reset_ball. destruct (random_uniform _ _ g). split; reflexivity. Qed.

Lemma _update_paddles_rules dt e : rules (_update_paddles dt e) = rules e.
Proof.
  unfold _update_paddles.
  destruct (String.eqb (p1_direction e) "up"), (String.eqb (p1_direction e) "down");
    cbn; destruct (String.eqb (p2_direction e) "up"), (String.eqb (p2_direction e) "down");
    reflexivity.
Qed.

Lemma _check_paddle_collision_rules n e ev :
  rules (fst (_check_paddle_collision n e ev)) = rules e.
Proof.
  unfold _check_paddle_collision.
  repeat (case_match; simplify_eq/=); reflexivity.
Qed.

Lemma _check_paddle_collision_paddles n e ev :
  paddles (fst (_check_paddle_collision n e ev)) = paddles e.
Proof.
  unfold _check_paddle_collision.
  repeat (case_match; simplify_eq/=); reflexivity.
Qed.

Lemma _check_paddle_collision_score n e ev :
  score (snd (_check_paddle_collision n e ev)) = score ev.
Proof.
  unfold _check_paddle_collision.
  repeat (case_match; simplify_eq/=); reflexivity.
Qed.

(** The tick of the ball: a state [e2] is reached by the move, the walls and
    the paddles, which leave the rules and the paddles alone; the position
    of the ball in [e2] then decides whether a point is scored. *)
Lemma _update_ball_cases dt e ev g :
  exists e2 ev2,
    rules e2 = rules e /\ paddles e2 = paddles e /\ score ev2 = score ev /\
    _update_ball dt e ev g =
      if (ball_x e2 <=? of_int 0)%py then
        let e3 := set_score_p2 (score_p2 e2 + 1) e2 in
        (fst (_handle_score e3 g), set_score (Some 2) ev2, snd (_handle_score e3 g))
      else if (ball_x e2 >=? of_int FIELD_WIDTH)%py then
        let e3 := set_score_p1 (score_p1 e2 + 1) e2 in
        (fst (_handle_score e3 g), set_score (Some 1) ev2, snd (_handle_score e3 g))
      else (e2, ev2, g).
Proof.
  unfold _update_ball.
  set (e0 := set_ball_y _ (set_ball_x _ e)).
  set (w := if (ball_y e0 - _ <=? _)%py then _ else _).
  assert (Hw : rules (fst w) = rules e /\ paddles (fst w) = paddles e /\
               score (snd w) = score ev).
  { subst w. repeat case_match; cbn; auto. }
  destruct w as [e1 ev1]. cbn in Hw. destruct Hw as (Hr & Hp & Hs).
  pose proof (_check_paddle_collision_rules 1 e1 ev1) as Hr1.
  pose proof (_check_paddle_collision_paddles 1 e1 ev1) as Hp1.
  pose proof (_check_paddle_collision_score 1 e1 ev1) as Hs1.
  destruct (_check_paddle_collision 1 e1 ev1) as [e1' ev1']. cbn in Hr1, Hp1, Hs1.
  pose proof (_check_paddle_collision_rules 2 e1' ev1') as Hr2.
  pose proof (_check_paddle_collision_paddles 2 e1' ev1') as Hp2.
  pose proof (_check_paddle_collision_score 2 e1' ev1') as Hs2.
  destruct (_check_paddle_collision 2 e1' ev1') as [e2 ev2]. cbn in Hr2, Hp2, Hs2.
  exists e2, ev2. repeat split; try congruence.
  repeat case_match; cbn;
    try match goal with |- context [_handle_score ?x g] => destruct (_handle_score x g) end;
    reflexivity.
Qed.

Lemma _handle_score_paddles e g : paddles (fst (_handle_score e g)) = paddles e.
Proof.
  unfold _handle_score.
  destruct (score_p1 e >=? points_limit e); [reflexivity|].
  destruct (score_p2 e >=? points_limit e); [reflexivity|].
  apply reset_ball_paddles.
Qed.

Lemma _update_ball_paddles dt e ev g :
  paddles (fst (fst (_update_ball dt e ev g))) = paddles e.
Proof.
  destruct (_update_ball_cases dt e ev g) as (e2 & ev2 & _ & Hp & _ & ->).
  repeat case_match; cbn; rewrite ?_handle_score_paddles; exact Hp.
Qed.

Lemma start_game_paddles e g : paddles (fst (start_game e g)) = paddles e.
Proof.
  unfold start_game. destruct (random_choice _ g) as [n g'].
  rewrite reset_ball_paddles. reflexivity.
Qed.

Lemma player_ready_paddles n e g : paddles (fst (player_ready n e g)) = paddles e.
Proof.
  unfold player_ready.
  repeat case_match; rewrite ?start_game_paddles; reflexivity.
Qed.

Lemma player_join_paddles n e : paddles (snd (player_join n e)) = paddles e.
Proof. unfold player_join. repeat case_match; reflexivity. Qed.

Lemma set_paddle_direction_paddles n d e : paddles (set_paddle_direction n d e) = paddles e.
Proof. unfold set_paddle_direction. repeat case_match; reflexivity. Qed.

Lemma run_cons (o : Op) (ops : list Op) (w : GameEngine * Rng) :
  run (o :: ops) w = run ops (apply_op o w).
Proof. reflexivity. Qed.

Lemma run_app (ops1 ops2 : list Op) (w : GameEngine * Rng) :
  run (ops1 ++ ops2) w = run ops2 (run ops1 w).
Proof. unfold run. apply fold_left_app. Qed.

(** A property of the engine that every operation of a list preserves holds
    at the end of the list. *)
Lemma run_invariant (P : Op -> Prop) (Inv : GameEngine -> Prop) :
  (forall o e g, P o -> Inv e -> Inv (fst (apply_op o (e, g)))) ->
  forall ops e g, Forall P ops -> Inv e -> Inv (fst (run ops (e, g))).
Proof.
  intros Hstep ops. induction ops as [|o ops IH]; intros e g Hops Hinv.
  - exact Hinv.
  - inversion Hops as [|? ? Ho Hrest]; subst. rewrite run_cons.
    specialize (Hstep o e g Ho Hinv).
    destruct (apply_op o (e, g)) as [e' g']. apply IH; assumption.
Qed.

(** The tick of the paddles ends by clamping both positions. *)
Lemma _update_paddles_clamped dt e :
  exists y1 y2,
    paddles (_update_paddles dt e) =
      (pymax (of_int PADDLE_HEIGHT / of_int 2)%py
         (pymin (of_int FIELD_HEIGHT - of_int PADDLE_HEIGHT / of_int 2)%py y1),
       pymax (of_int PADDLE_HEIGHT / of_int 2)%py
         (pymin (of_int FIELD_HEIGHT - of_int PADDLE_HEIGHT / of_int 2)%py y2)).
Proof. unfold _update_paddles. eexists _, _. reflexivity. Qed.

Lemma update_not_playing dt e g :
  status e <> playing -> update dt e g = (no_events, e, g).
Proof.
  intros Hs. unfold update.
  destruct (status e); try reflexivity. contradiction.
Qed.

Lemma update_playing dt e g :
  status e = playing ->
  update dt e g =
    let '(e', ev, g') := _update_ball dt (_update_paddles dt e) no_events g in (ev, e', g').
Proof. intros Hs. unfold update. rewrite Hs. reflexivity. Qed.

End Frames.

(** *** Frame of a tick outside play *)

Section Rules.
Context {F : Type} `{PyFloat F} `{PyRuntime F}.
Implicit Types (e : @GameEngine F) (g : Rng) (ev : Events).

(** C7. When the status is not [playing] (it is waiting_for_opponent,
    waiting_for_ready or finished), [update] changes no attribute of the
    engine, draws no random number and returns the event record with no
    paddle hit, no wall hit and no score; hence any number of ticks of a
    finished match leaves the engine, and so its paddles, as they were. *)
Theorem update_outside_play_is_noop dt e g :
  status e <> playing ->
  (let '(ev, e', g') := update dt e g in
   e' = e /\ g' = g /\ paddle_hit ev = false /\ wall_hit ev = false /\
   score ev = None /\ game_over ev = false) /\
  (forall dts, run (map OpUpdate dts) (e, g) = (e, g)).
Proof.
  intros Hs. split.
  - rewrite update_not_playing by assumption. cbn. auto 6.
  - intros dts. induction dts as [|d dts IH]; [reflexivity|].
    cbn [map]. rewrite run_cons. unfold apply_op.
    rewrite update_not_playing by assumption. exact IH.
Qed.

(** *** Scoring *)

(** C4, as the code has it. On a tick that scores a point and leaves the
    match in play, the ball is at exactly (50, 50) after the tick. On the
    tick that scores the winning point the ball is not moved back: it stays
    where it crossed the goal line, at [x <= 0] or [x >= 100]. *)
Theorem ball_recentred_after_score dt e g :
  score (fst (fst (update dt e g))) <> None ->
  let e' := snd (fst (update dt e g)) in
  (status e' = playing \/ status e' = finished) /\
  (status e' = playing -> ball_x e' = of_int 50 /\ ball_y e' = of_int 50) /\
  (status e' = finished ->
   (ball_x e' <=? of_int 0)%py = true \/ (ball_x e' >=? of_int FIELD_WIDTH)%py = true).
Proof.
  destruct (Status_eqb (status e) playing) eqn:Hp.
  2:{ rewrite update_not_playing by (intros E; rewrite E in Hp; discriminate).
      cbn. congruence. }
  assert (Hs : status e = playing) by (destruct (status e); try discriminate; reflexivity).
  rewrite (update_playing dt e g Hs).
  destruct (_update_ball_cases dt (_update_paddles dt e) no_events g)
    as (e2 & ev2 & Hr & _ & Hsc & ->).
  rewrite _update_paddles_rules in Hr. unfold rules in Hr.
  injection Hr as Hst _ _ _ _. rewrite Hs in Hst.
  assert (Hhs : forall e3, status e3 = playing ->
            let r := fst (_handle_score e3 g) in
            (status r = playing /\ ball_x r = of_int 50 /\ ball_y r = of_int 50) \/
            (status r = finished /\ ball_x r = ball_x e3)).
  { intros e3 H3. unfold _handle_score.
    destruct (score_p1 e3 >=? points_limit e3); [right; split; reflexivity|].
    destruct (score_p2 e3 >=? points_limit e3); [right; split; reflexivity|].
    left. match goal with |- context [reset_ball ?n e3 g] =>
      pose proof (reset_ball_rules n e3 g) as Hr3;
      pose proof (reset_ball_position n e3 g) as [Hx Hy] end.
    unfold rules in Hr3. injection Hr3 as Hst3 _ _ _ _.
    cbn zeta. rewrite Hst3, H3. auto. }
  destruct (ball_x e2 <=? of_int 0)%py eqn:Hlo;
    [|destruct (ball_x e2 >=? of_int FIELD_WIDTH)%py eqn:Hhi].
  - cbn -[_handle_score]. intros _.
    destruct (Hhs (set_score_p2 (score_p2 e2 + 1) e2) Hst) as [(Ha & Hx & Hy)|(Ha & Hx)];
      cbn zeta in *; rewrite Ha.
    + repeat split; auto; discriminate.
    + repeat split; auto; try discriminate. intros _. left. rewrite Hx. exact Hlo.
  - cbn -[_handle_score]. intros _.
    destruct (Hhs (set_score_p1 (score_p1 e2 + 1) e2) Hst) as [(Ha & Hx & Hy)|(Ha & Hx)];
      cbn zeta in *; rewrite Ha.
    + repeat split; auto; discriminate.
    + repeat split; auto; try discriminate. intros _. right. rewrite Hx. exact Hhi.
  - cbn. rewrite Hsc. cbn. congruence.
Qed.

(** The outcome of [_handle_score] once player 1 (resp. 2) has been given
    a point in a match that satisfies the invariant. *)
Lemma _handle_score_invariant L e g :
  points_limit e = L -> 0 <= score_p1 e <= L -> 0 <= score_p2 e <= L ->
  status e = playing -> winner e = None ->
  (score_p1 e < L \/ score_p2 e < L) ->
  match_invariant L (fst (_handle_score e g)).
Proof.
  intros HL H1 H2 Hs Hw Hlt. unfold _handle_score. rewrite HL.
  destruct (Z.geb_spec (score_p1 e) L) as [G1|G1].
  { unfold match_invariant. cbn. repeat split; try lia; try assumption.
    right. left. repeat split; lia. }
  destruct (Z.geb_spec (score_p2 e) L) as [G2|G2].
  { unfold match_invariant. cbn. repeat split; try lia; try assumption.
    right. right. repeat split; lia. }
  match goal with |- context [reset_ball ?n e g] =>
    pose proof (reset_ball_rules n e g) as Hr end.
  unfold rules in Hr. injection Hr as E1 E2 E3 E4 E5.
  unfold match_invariant. rewrite E1, E2, E3, E4, E5.
  repeat split; try lia; try assumption. left. repeat split; try assumption; lia.
Qed.

Lemma update_invariant L dt e g :
  match_invariant L e -> match_invariant L (snd (fst (update dt e g))).
Proof.
  intros Hinv.
  destruct (Status_eqb (status e) playing) eqn:Hp.
  2:{ rewrite update_not_playing by (intros E; rewrite E in Hp; discriminate).
      exact Hinv. }
  assert (Hs : status e = playing) by (destruct (status e); try discriminate; reflexivity).
  rewrite (update_playing dt e g Hs).
  destruct (_update_ball_cases dt (_update_paddles dt e) no_events g)
    as (e2 & ev2 & Hr & _ & _ & ->).
  rewrite _update_paddles_rules in Hr. unfold rules in Hr.
  injection Hr as E1 E2 E3 E4 E5.
  destruct Hinv as (HL & P1 & P2 & [(_ & L1 & L2 & Hw)|[(Hf & _)|(Hf & _)]]);
    try congruence.
  destruct (ball_x e2 <=? of_int 0)%py;
    [|destruct (ball_x e2 >=? of_int FIELD_WIDTH)%py].
  - cbn -[_handle_score]. apply _handle_score_invariant; cbn; try lia; congruence.
  - cbn -[_handle_score]. apply _handle_score_invariant; cbn; try lia; congruence.
  - cbn. unfold match_invariant. rewrite E1, E2, E3, E4, E5.
    repeat split; try assumption. left. repeat split; assumption.
Qed.

Lemma play_op_invariant L o e g :
  play_op o -> match_invariant L e -> match_invariant L (fst (apply_op o (e, g))).
Proof.
  intros Ho Hinv. destruct o as [n|n|n d|dt|]; try contradiction.
  - cbn. unfold set_paddle_direction. repeat case_match; exact Hinv.
  - unfold apply_op. pose proof (update_invariant L dt e g Hinv) as Hu.
    destruct (update dt e g) as [[ev e'] g']. exact Hu.
Qed.

(** C2. In a match with a positive point limit [L], at every state reached
    from a fresh playing state by ticks (and paddle inputs): the match is
    finished if and only if exactly one of the two scores equals [L]; the
    winner is then the player whose score is [L]; while the match is in play
    both scores are below [L], so the match is finished at the first tick
    at which a score equals [L]. And with [L = 5] and [score_p1 = 4], a tick
    on which player 1 scores ends with [score_p1 = 5], the status finished
    and the winner Player 1. *)
Theorem match_finished_iff_limit_reached L e0 g0 ops :
  0 < L -> points_limit e0 = L -> fresh_playing e0 -> Forall play_op ops ->
  let e := fst (run ops (e0, g0)) in
  (status e = finished <->
   (score_p1 e = L /\ score_p2 e <> L) \/ (score_p1 e <> L /\ score_p2 e = L)) /\
  (status e = finished ->
   (score_p1 e = L /\ winner e = Some "Player 1") \/
   (score_p2 e = L /\ winner e = Some "Player 2")) /\
  (status e = playing \/ status e = finished) /\
  (status e = playing -> score_p1 e < L /\ score_p2 e < L /\ winner e = None) /\
  (forall dt e1 g1,
     points_limit e1 = 5 -> score_p1 e1 = 4 ->
     score (fst (fst (update dt e1 g1))) = Some 1 ->
     let e1' := snd (fst (update dt e1 g1)) in
     score_p1 e1' = 5 /\ status e1' = finished /\ winner e1' = Some "Player 1").
Proof.
  intros HL Hlim (Hs & H1 & H2 & Hw) Hops.
  assert (Hinv : match_invariant L (fst (run ops (e0, g0)))).
  { apply (run_invariant play_op (match_invariant L)); [|assumption|].
    - intros o e g. apply play_op_invariant.
    - unfold match_invariant. repeat split; try lia; try assumption.
      left. repeat split; try assumption; lia. }
  cbn zeta. set (e := fst (run ops (e0, g0))) in *.
  destruct Hinv as (_ & P1 & P2 & Hcases).
  split; [|split; [|split; [|split]]].
  - destruct Hcases as [(Hp & L1 & L2 & _)|[(Hf & E1 & L2 & _)|(Hf & E2 & L1 & _)]].
    + split; [congruence|]. intros [[? ?]|[? ?]]; lia.
    + split; [|intros _; assumption]. intros _. left. split; lia.
    + split; [|intros _; assumption]. intros _. right. split; lia.
  - intros Hf.
    destruct Hcases as [(Hp & _)|[(_ & E1 & _ & W)|(_ & E2 & _ & W)]];
      [congruence|left|right]; split; assumption.
  - destruct Hcases as [(Hp & _)|[(Hf & _)|(Hf & _)]]; auto.
  - intros Hp.
    destruct Hcases as [(_ & L1 & L2 & W)|[(Hf & _)|(Hf & _)]];
      [repeat split; assumption|congruence|congruence].
  - clear. intros dt e1 g1 Hlim H4.
    destruct (Status_eqb (status e1) playing) eqn:Hp.
    2:{ rewrite update_not_playing by (intros E; rewrite E in Hp; discriminate).
        cbn. discriminate. }
    assert (Hs : status e1 = playing)
      by (destruct (status e1); try discriminate; reflexivity).
    rewrite (update_playing dt e1 g1 Hs).
    destruct (_update_ball_cases dt (_update_paddles dt e1) no_events g1)
      as (e2 & ev2 & Hr & _ & Hsc & ->).
    rewrite _update_paddles_rules in Hr. unfold rules in Hr.
    injection Hr as E1 E2 E3 E4 E5.
    destruct (ball_x e2 <=? of_int 0)%py;
      [|destruct (ball_x e2 >=? of_int FIELD_WIDTH)%py].
    + cbn -[_handle_score]. discriminate.
    + cbn -[_handle_score]. intros _. unfold _handle_score. cbn.
      rewrite E2, E3, Hlim, H4. cbn. repeat split; reflexivity.
    + cbn. rewrite Hsc. cbn. discriminate.
Qed.

(** *** Paddle collisions *)


(** The engine that a check leaves does not depend on the event record. *)
Lemma _check_paddle_collision_engine n e ev ev' :
  fst (_check_paddle_collision n e ev) = fst (_check_paddle_collision n e ev').
Proof.
  unfold _check_paddle_collision.
  repeat (case_match; simplify_eq/=); reflexivity.
Qed.

(** A check that leaves [paddle_hit] unset has changed nothing. *)
Lemma _check_paddle_collision_miss n e ev :
  paddle_hit ev = false ->
  paddle_hit (snd (_check_paddle_collision n e ev)) = false ->
  _check_paddle_collision n e ev = (e, ev).
Proof.
  intros Hev. unfold _check_paddle_collision.
  destruct (n =? 1).
  - destruct (ball_velocity_x e <? of_int 0)%py; cbn [negb]; [|reflexivity].
    match goal with |- context [if ?c then _ else (e, ev)] => destruct c end;
      [|reflexivity].
    cbn. discriminate.
  - destruct (ball_velocity_x e >? of_int 0)%py; cbn [negb]; [|reflexivity].
    match goal with |- context [if ?c then _ else (e, ev)] => destruct c end;
      [|reflexivity].
    cbn. discriminate.
Qed.

(** A detected collision puts the ball just outside the face of the
    paddle. *)
Lemma _check_paddle_collision_hit_position n e ev :
  paddle_hit ev = false ->
  paddle_hit (snd (_check_paddle_collision n e ev)) = true ->
  ball_x (fst (_check_paddle_collision n e ev)) =
    if n =? 1
    then (of_int PADDLE_WIDTH + of_int PADDLE_WIDTH / of_int 2
          + of_int BALL_SIZE / of_int 2 + dec 1 10)%py
    else (of_int (FIELD_WIDTH - PADDLE_WIDTH) - of_int PADDLE_WIDTH / of_int 2
          - of_int BALL_SIZE / of_int 2 - dec 1 10)%py.
Proof.
  intros Hev. unfold _check_paddle_collision.
  destruct (n =? 1).
  - destruct (ball_velocity_x e <? of_int 0)%py; cbn [negb]; [|cbn; congruence].
    match goal with |- context [if ?c then _ else (e, ev)] => destruct c end;
      [|cbn; congruence].
    intros _. reflexivity.
  - destruct (ball_velocity_x e >? of_int 0)%py; cbn [negb]; [|cbn; congruence].
    match goal with |- context [if ?c then _ else (e, ev)] => destruct c end;
      [|cbn; congruence].
    intros _. reflexivity.
Qed.

(** The tick of the ball in its phases: the move and the walls lead to a
    state [e1] with the same horizontal velocity and a vertical velocity of
    the same magnitude; the two paddles are checked in turn from [e1]; the
    goal lines are tested last. *)
Lemma _update_ball_phases dt e ev g :
  exists e1 ev1,
    ball_velocity_x e1 = ball_velocity_x e /\
    (ball_velocity_y e1 = ball_velocity_y e \/
     ball_velocity_y e1 = fabs (ball_velocity_y e) \/
     ball_velocity_y e1 = (- fabs (ball_velocity_y e))%py) /\
    paddle_hit ev1 = paddle_hit ev /\
    _update_ball dt e ev g =
      let '(ea, eva) := _check_paddle_collision 1 e1 ev1 in
      let '(eb, evb) := _check_paddle_collision 2 ea eva in
      if (ball_x eb <=? of_int 0)%py then
        let e3 := set_score_p2 (score_p2 eb + 1) eb in
        (fst (_handle_score e3 g), set_score (Some 2) evb, snd (_handle_score e3 g))
      else if (ball_x eb >=? of_int FIELD_WIDTH)%py then
        let e3 := set_score_p1 (score_p1 eb + 1) eb in
        (fst (_handle_score e3 g), set_score (Some 1) evb, snd (_handle_score e3 g))
      else (eb, evb, g).
Proof.
  unfold _update_ball.
  set (e0 := set_ball_y _ (set_ball_x _ e)).
  set (w := if (ball_y e0 - _ <=? _)%py then _ else _).
  assert (Hw : ball_velocity_x (fst w) = ball_velocity_x e /\
               (ball_velocity_y (fst w) = ball_velocity_y e \/
                ball_velocity_y (fst w) = fabs (ball_velocity_y e) \/
                ball_velocity_y (fst w) = (- fabs (ball_velocity_y e))%py) /\
               paddle_hit (snd w) = paddle_hit ev).
  { subst w. repeat case_match; cbn; auto. }
  destruct w as [e1 ev1]. cbn [fst snd] in Hw. destruct Hw as (Hx & Hy & Hh).
  exists e1, ev1. repeat split; try assumption.
  destruct (_check_paddle_collision 1 e1 ev1) as [ea eva].
  destruct (_check_paddle_collision 2 ea eva) as [eb evb].
  repeat case_match; cbn;
    try match goal with |- context [_handle_score ?x g] => destruct (_handle_score x g) end;
    reflexivity.
Qed.

(** *** The status *)

Lemma start_game_status e g : status (fst (start_game e g)) = playing.
Proof.
  unfold start_game. destruct (random_choice _ g) as [n g'].
  pose proof (reset_ball_rules n (set_status playing e) g') as Hr.
  unfold rules in Hr. injection Hr as E _ _ _ _. exact E.
Qed.

Lemma player_join_status n e :
  status (snd (player_join n e)) = status e \/
  status (snd (player_join n e)) = waiting_for_ready.
Proof. unfold player_join. repeat case_match; cbn; auto. Qed.

Lemma player_ready_status n e g :
  status (fst (player_ready n e g)) = status e \/
  (status e = waiting_for_ready /\ status (fst (player_ready n e g)) = playing).
Proof.
  unfold player_ready.
  set (e1 := if n =? 1 then _ else _).
  assert (E : status e1 = status e) by (subst e1; repeat case_match; reflexivity).
  destruct (player1_ready e1 && player2_ready e1 && Status_eqb (status e1) waiting_for_ready)
    eqn:C.
  - right. rewrite start_game_status. split; [|reflexivity].
    apply andb_prop in C as [_ C]. rewrite E in C.
    destruct (status e); try discriminate; reflexivity.
  - left. exact E.
Qed.

Lemma update_status dt e g :
  status (snd (fst (update dt e g))) = status e \/
  (status e = playing /\ status (snd (fst (update dt e g))) = finished).
Proof.
  destruct (Status_eqb (status e) playing) eqn:Hp.
  2:{ rewrite update_not_playing by (intros E; rewrite E in Hp; discriminate).
      left. reflexivity. }
  assert (Hs : status e = playing) by (destruct (status e); try discriminate; reflexivity).
  rewrite (update_playing dt e g Hs).
  destruct (_update_ball_cases dt (_update_paddles dt e) no_events g)
    as (e2 & ev2 & Hr & _ & _ & ->).
  rewrite _update_paddles_rules in Hr. unfold rules in Hr.
  injection Hr as E _ _ _ _.
  assert (Hhs : forall e3, status e3 = status e ->
            status (fst (_handle_score e3 g)) = status e \/
            status (fst (_handle_score e3 g)) = finished).
  { intros e3 H3. unfold _handle_score.
    destruct (score_p1 e3 >=? points_limit e3); [right; reflexivity|].
    destruct (score_p2 e3 >=? points_limit e3); [right; reflexivity|].
    left. match goal with |- context [reset_ball ?n e3 g] =>
      pose proof (reset_ball_rules n e3 g) as Hr3 end.
    unfold rules in Hr3. injection Hr3 as Hst3 _ _ _ _. congruence. }
  destruct (ball_x e2 <=? of_int 0)%py;
    [|destruct (ball_x e2 >=? of_int FIELD_WIDTH)%py]; cbn -[_handle_score].
  - destruct (Hhs (set_score_p2 (score_p2 e2 + 1) e2) E); auto.
  - destruct (Hhs (set_score_p1 (score_p1 e2 + 1) e2) E); auto.
  - left. exact E.
Qed.

Lemma op_in_order_forward o e g :
  op_in_order (status e) o ->
  (rank (status e) <= rank (status (fst (apply_op o (e, g)))))%nat.
Proof.
  intros Ho. destruct o as [n|n|n d|dt|]; cbn [apply_op fst].
  - destruct Ho as [Ho|Ho], (player_join_status n e) as [E|E]; rewrite E, ?Ho; cbn; lia.
  - destruct (player_ready_status n e g) as [E|[E1 E2]]; [rewrite E; lia|].
    rewrite E1, E2. cbn. lia.
  - unfold set_paddle_direction. repeat case_match; cbn; lia.
  - pose proof (update_status dt e g) as Hu.
    destruct (update dt e g) as [[ev e'] g']. cbn in *.
    destruct Hu as [E|[E1 E2]]; [rewrite E; lia|]. rewrite E1, E2. cbn. lia.
  - cbn in Ho. rewrite start_game_status. destruct (status e); cbn; try lia.
    contradiction.
Qed.

Lemma orderly_forward ops w :
  orderly ops w -> (rank (status (fst w)) <= rank (status (fst (run ops w))))%nat.
Proof.
  revert w. induction ops as [|o ops IH]; intros [e g] Hord; [cbn; lia|].
  destruct Hord as [Ho Hrest]. rewrite run_cons.
  pose proof (op_in_order_forward o e g Ho). specialize (IH _ Hrest).
  cbn [fst] in *. lia.
Qed.

Lemma orderly_app ops1 ops2 w :
  orderly (ops1 ++ ops2) w -> orderly ops2 (run ops1 w).
Proof.
  revert w. induction ops1 as [|o ops1 IH]; intros w Hord; [exact Hord|].
  destruct Hord as [_ Hrest]. rewrite run_cons. apply IH. exact Hrest.
Qed.

(** Orderly matches. Along every sequence of operations in which
    [player_join] is applied only before play begins (status
    waiting_for_opponent or waiting_for_ready) and [start_game] only to a
    match that is not finished, with [player_ready], [set_paddle_direction]
    and [update] applied at will, the status only moves forward along
    waiting_for_opponent, waiting_for_ready, playing, finished: the status
    after a prefix of the sequence is never ahead of the status after the
    whole of it. *)
Theorem status_moves_forward ops1 ops2 w :
  orderly (ops1 ++ ops2) w ->
  (rank (status (fst (run ops1 w))) <= rank (status (fst (run (ops1 ++ ops2) w))))%nat.
Proof.
  intros Hord. rewrite run_app. apply orderly_forward.
  apply orderly_app. exact Hord.
Qed.

End Rules.
End engine_facts.

(** ** The engine on binary64 numbers *)

Module float_facts.
Import game_engine engine_facts scenario.

Section AnyRuntime.
Context `{PyRuntime float}.
Implicit Types (e : @GameEngine float) (g : Rng).

Lemma in_paddle_range_10_90 (y : float) :
  in_paddle_range y <-> PrimFloat.leb 10 y = true /\ PrimFloat.leb y 90 = true.
Proof. reflexivity. Qed.

Lemma clamped_in_paddle_range (y : float) :
  in_paddle_range
    (pymax (of_int PADDLE_HEIGHT / of_int 2)%py
       (pymin (of_int FIELD_HEIGHT - of_int PADDLE_HEIGHT / of_int 2)%py y)).
Proof. apply clamp_in_range; reflexivity. Qed.

Lemma update_paddles_in_range dt e g :
  status e = playing ->
  in_paddle_range (p1_y (snd (fst (update dt e g)))) /\
  in_paddle_range (p2_y (snd (fst (update dt e g)))).
Proof.
  intros Hs. rewrite (update_playing dt e g Hs).
  pose proof (_update_ball_paddles dt (_update_paddles dt e) no_events g) as Hp.
  destruct (_update_ball dt (_update_paddles dt e) no_events g) as [[e' ev] g'].
  cbn in *. destruct (_update_paddles_clamped dt e) as (y1 & y2 & Hc).
  rewrite Hc in Hp. unfold paddles in Hp. injection Hp as -> ->.
  split; apply clamped_in_paddle_range.
Qed.

Lemma apply_op_paddles_in_range o e g :
  in_paddle_range (p1_y e) /\ in_paddle_range (p2_y e) ->
  in_paddle_range (p1_y (fst (apply_op o (e, g)))) /\
  in_paddle_range (p2_y (fst (apply_op o (e, g)))).
Proof.
  intros Hin.
  assert (Hframe : forall e', paddles e' = paddles e ->
            in_paddle_range (p1_y e') /\ in_paddle_range (p2_y e')).
  { intros e' Hp. unfold paddles in Hp. injection Hp as -> ->. exact Hin. }
  destruct o as [n|n|n d|dt|]; cbn [apply_op fst].
  - apply Hframe, player_join_paddles.
  - apply Hframe, player_ready_paddles.
  - apply Hframe, set_paddle_direction_paddles.
  - destruct (Status_eqb (status e) playing) eqn:Hp.
    + assert (Hs : status e = playing)
        by (destruct (status e); try discriminate; reflexivity).
      pose proof (update_paddles_in_range dt e g Hs) as Hu.
      destruct (update dt e g) as [[ev e'] g']. exact Hu.
    + rewrite update_not_playing by (intros E; rewrite E in Hp; discriminate).
      exact Hin.
  - apply Hframe, start_game_paddles.
Qed.

(** C6. After every [update] of a match in play each paddle's position lies
    within [half_paddle_height, field_height - half_paddle_height], which is
    [10, 90], whatever the directions and the positions before the tick; and
    along every sequence of operations from a new engine both positions lie
    in that range after every operation. *)
Theorem paddles_stay_in_field dt e g room limit g0 ops :
  (status e = playing ->
   in_paddle_range (p1_y (snd (fst (update dt e g)))) /\
   in_paddle_range (p2_y (snd (fst (update dt e g))))) /\
  (in_paddle_range (p1_y (fst (run ops (init room limit, g0)))) /\
   in_paddle_range (p2_y (fst (run ops (init room limit, g0))))) /\
  (forall y : float,
     in_paddle_range y <-> PrimFloat.leb 10 y = true /\ PrimFloat.leb y 90 = true).
Proof.
  split; [apply update_paddles_in_range|split; [|apply in_paddle_range_10_90]].
  apply (run_invariant (fun _ => True)
           (fun e => in_paddle_range (p1_y e) /\ in_paddle_range (p2_y e))).
  - intros o e1 g1 _. apply apply_op_paddles_in_range.
  - apply Forall_forall. intros; exact I.
  - split; split; reflexivity.
Qed.

End AnyRuntime.

(** *** Concrete matches *)

(** C3, on the code. Player 1 scores while behind 0-2: the match goes on at
    1-2 and the ball is served with a negative horizontal velocity, towards
    player 1, who has just scored, not towards player 2, who was scored on.
    Player 2 scores at 1-0 and ties the match: the ball is served with a
    positive horizontal velocity, towards player 2, who has just scored. *)
Theorem serve_follows_the_scores :
  (let '(ev, e', _) := update tick p1_scores_behind seed in
   score ev = Some 1 /\ status e' = playing /\
   (score_p1 e', score_p2 e') = (1, 2) /\
   (ball_velocity_x e' <? of_int 0)%py = true) /\
  (let '(ev, e', _) := update tick p2_scores_tie seed in
   score ev = Some 2 /\ status e' = playing /\
   (score_p1 e', score_p2 e') = (1, 1) /\
   (ball_velocity_x e' >? of_int 0)%py = true).
Proof. vm_compute. repeat split. Qed.

(** C4, counterexample. The tick on which player 1 scores the fifth point of
    five: a point is scored, the match is finished, and the ball is at
    [x = 100.5], not at 50. *)
Lemma winning_point_leaves_ball :
  let '(ev, e', _) := update tick p1_scores_last seed in
  score ev = Some 1 /\ status e' = finished /\
  ball_x e' = (of_int 100 + dec 5 10)%py /\ ball_x e' <> of_int 50.
Proof.
  vm_compute. repeat split. intros E.
  assert (E' : PrimFloat.eqb 100.5 50 = true) by (rewrite E; reflexivity).
  vm_compute in E'. discriminate E'.
Qed.


(** *** The unit tests of the repository

    The assertions of tests/unit/test_engine.py, evaluated on the
    embedding. *)

Example decimal_literals :
  INITIAL_BALL_SPEED = 0x1.999999999999ap-1%float /\
  SPEED_INCREASE_FACTOR = 0x1.0cccccccccccdp+0%float /\
  PADDLE_SPEED = 1.5%float /\ MAX_BALL_SPEED = 3%float /\
  (dec 5 10 : float) = 0.5%float /\ (dec 1 10 : float) = 0x1.999999999999ap-4%float.
Proof. repeat split; reflexivity. Qed.

Example unit_test_ball_initial_position :
  ball_x (started "TEST001" 5) = 50%float /\ ball_y (started "TEST001" 5) = 50%float.
Proof. split; reflexivity. Qed.

Example unit_test_paddle_boundaries :
  p1_y (fst (run (updates 20) (test_paddle_boundary_top, seed))) = 10%float /\
  p1_y (fst (run (updates 20) (test_paddle_boundary_bottom, seed))) = 90%float.
Proof. split; vm_compute; reflexivity. Qed.

Example unit_test_speed_increase_on_hit :
  let e := fst (run (updates 1) (test_speed_increase_on_hit, seed)) in
  (ball_velocity_x e >? of_int 0)%py = true /\
  (fabs (speed e - dec 5 10 * SPEED_INCREASE_FACTOR) <=?
     dec 1 100 * (dec 5 10 * SPEED_INCREASE_FACTOR))%py = true.
Proof. vm_compute. split; reflexivity. Qed.

Example unit_test_score_p2 :
  let e := fst (run (updates 10) (test_score_p2, seed)) in
  score_p2 e = 1 /\ score_p1 e = 0 /\ status e = playing.
Proof. vm_compute. repeat split. Qed.

Example unit_test_winning_conditions :
  (let e := fst (run (updates 15) (test_winning_condition_5, seed)) in
   score_p1 e = 5 /\ status e = finished /\ winner e = Some "Player 1") /\
  (let e := fst (run (updates 15) (test_winning_condition_20, seed)) in
   score_p2 e = 20 /\ status e = finished /\ winner e = Some "Player 2").
Proof. vm_compute. repeat split. Qed.

Example unit_test_ready_states :
  status (fst (run [OpJoin 1] new_match)) = waiting_for_opponent /\
  status (fst (run [OpJoin 1; OpJoin 2] new_match)) = waiting_for_ready /\
  status (fst (run [OpJoin 1; OpJoin 2; OpReady 1] new_match)) = waiting_for_ready /\
  status (fst (run [OpJoin 1; OpJoin 2; OpReady 1; OpReady 1; OpReady 2] new_match))
    = playing.
Proof. vm_compute. repeat split. Qed.

(** *** The theorems at concrete matches *)

(** From a new engine to play and on to a tick and a paddle input. *)
Lemma status_moves_forward_witness :
  orderly (both_ready ++ [OpUpdate tick; OpDirection 1 "up"]) new_match /\
  (rank (status (fst (run both_ready new_match)))
   <= rank (status (fst (run (both_ready ++ [OpUpdate tick; OpDirection 1 "up"])
                            new_match))))%nat.
Proof.
  assert (Hord : orderly (both_ready ++ [OpUpdate tick; OpDirection 1 "up"]) new_match).
  { vm_compute. repeat split; auto. }
  split; [exact Hord|].
  exact (status_moves_forward both_ready [OpUpdate tick; OpDirection 1 "up"]
           new_match Hord).
Defined.

(** A match to one point: the serve goes to player 1, passes below the
    paddle, and player 2 wins within 70 ticks. *)
Lemma match_finished_iff_limit_reached_witness :
  let e0 := fst (run both_ready short_match) in
  let g0 := snd (run both_ready short_match) in
  let ops := repeat (OpUpdate tick) 70 in
  let e := fst (run ops (e0, g0)) in
  (0 < 1 /\ points_limit e0 = 1 /\ fresh_playing e0 /\ Forall play_op ops) /\
  (status e = finished /\ score_p2 e = 1 /\ winner e = Some "Player 2") /\
  (status e = finished <->
   (score_p1 e = 1 /\ score_p2 e <> 1) \/ (score_p1 e <> 1 /\ score_p2 e = 1)).
Proof.
  cbv zeta.
  assert (H1 : 0 < 1) by lia.
  assert (H2 : points_limit (fst (run both_ready short_match)) = 1) by reflexivity.
  assert (H3 : fresh_playing (fst (run both_ready short_match)))
    by (vm_compute; repeat split).
  assert (H4 : Forall play_op (repeat (@OpUpdate float tick) 70))
    by (cbn; repeat constructor).
  split; [repeat split; assumption|].
  split; [vm_compute; repeat split|].
  exact (proj1 (match_finished_iff_limit_reached 1
                  (fst (run both_ready short_match)) (snd (run both_ready short_match))
                  (repeat (OpUpdate tick) 70) H1 H2 H3 H4)).
Defined.

(** Player 1 scores at 0-2: the match goes on and the ball is at the
    centre. *)
Lemma ball_recentred_after_score_witness :
  score (fst (fst (update tick p1_scores_behind seed))) <> None /\
  (status (snd (fst (update tick p1_scores_behind seed))) = playing ->
   ball_x (snd (fst (update tick p1_scores_behind seed))) = of_int 50 /\
   ball_y (snd (fst (update tick p1_scores_behind seed))) = of_int 50).
Proof.
  assert (Hs : score (fst (fst (update tick p1_scores_behind seed))) <> None)
    by (vm_compute; discriminate).
  split; [exact Hs|].
  exact (proj1 (proj2 (ball_recentred_after_score tick p1_scores_behind seed Hs))).
Defined.

(** A tick of a match in play. *)
Lemma paddles_stay_in_field_witness :
  status off_centre_hit = playing /\
  in_paddle_range (p1_y (snd (fst (update tick off_centre_hit seed)))) /\
  in_paddle_range (p2_y (snd (fst (update tick off_centre_hit seed)))).
Proof.
  split; [reflexivity|].
  exact (proj1 (paddles_stay_in_field tick off_centre_hit seed "ROOM" 5 seed [])
           eq_refl).
Defined.

(** Ticks before the players have joined. *)
Lemma update_outside_play_is_noop_witness :
  status (fst new_match) <> playing /\
  run (map OpUpdate [tick; tick; tick]) (fst new_match, seed) = (fst new_match, seed).
Proof.
  assert (Hs : status (fst new_match) <> playing) by (vm_compute; discriminate).
  split; [exact Hs|].
  exact (proj2 (update_outside_play_is_noop tick (fst new_match) seed Hs)
           [tick; tick; tick]).
Defined.

End float_facts.


(** ** The session handlers *)

Module consumer_facts.
Import game_engine consumers.

Section Handlers.
Context {F : Type} `{PyFloat F} `{PyRuntime F}.
Implicit Types (self : Consumer) (room : @Room F) (data : gmap string json).

(** [handle_join_game] leaves the room with an engine. *)
Lemma handle_join_game_engine data self (rooms : gmap string Room) room :
  rooms !! room_code self = Some room ->
  exists self' rooms' effects room',
    handle_join_game data self rooms = Ok (self', rooms', effects) /\
    room_code self' = room_code self /\
    rooms' !! room_code self' = Some room' /\ engine room' <> None.
Proof.
  intros Hroom. unfold handle_join_game. rewrite Hroom.
  repeat case_match; simplify_eq;
    eexists _, _, _, _; (split; [reflexivity|]); cbn;
    rewrite lookup_insert_eq; repeat split; discriminate.
Qed.

(** Neither handler takes an engine away from a room. *)
Lemma handlers_keep_engines data self (rooms : gmap string Room) self' rooms' effects :
  handle_join_game data self rooms = Ok (self', rooms', effects) \/
  handle_move_paddle data self rooms = Ok (self', rooms', effects) ->
  forall code room,
    rooms !! code = Some room -> engine room <> None ->
    exists room', rooms' !! code = Some room' /\ engine room' <> None.
Proof.
  assert (Hins : forall (r : Room) code room,
            rooms !! code = Some room -> engine room <> None -> engine r <> None ->
            exists room', <[room_code self := r]> rooms !! code = Some room' /\
                          engine room' <> None).
  { intros r code room Hc He Hr. destruct (decide (room_code self = code)) as [<-|Hne].
    - exists r. rewrite lookup_insert_eq. split; [reflexivity|exact Hr].
    - exists room. rewrite lookup_insert_ne by exact Hne. split; assumption. }
  intros [Hjoin|Hmove] code room Hc He.
  - unfold handle_join_game in Hjoin.
    repeat case_match; simplify_eq; try (exists room; split; assumption);
      cbn [room_code set_role set_player_num];
      apply (Hins _ code room Hc He); discriminate.
  - unfold handle_move_paddle in Hmove.
    repeat case_match; simplify_eq; try (exists room; split; assumption);
      apply (Hins _ code room Hc He); discriminate.
Qed.



End Handlers.

(** *** The theorems at a concrete room *)



End consumer_facts.

(** ** More of the engine *)

Module engine_laws.
Import game_engine engine_facts.

Section Laws.
Context {F : Type} `{PyFloat F} `{PyRuntime F}.
Implicit Types (e : @GameEngine F) (g : Rng) (ev : Events).

Lemma _handle_score_scores e g :
  score_p1 (fst (_handle_score e g)) = score_p1 e /\
  score_p2 (fst (_handle_score e g)) = score_p2 e /\
  points_limit (fst (_handle_score e g)) = points_limit e.
Proof.
  unfold _handle_score.
  destruct (score_p1 e >=? points_limit e); [repeat split|].
  destruct (score_p2 e >=? points_limit e); [repeat split|].
  match goal with |- context [reset_ball ?n e g] =>
    pose proof (reset_ball_rules n e g) as Hr end.
  unfold rules in Hr. injection Hr as _ E2 E3 E4 _. auto.
Qed.

(** Rewrites an observation that does not read the ball through the
    assignments to the ball. *)
Ltac blind Hf :=
  repeat first
    [ rewrite (proj1 (Hf _ _))
    | rewrite (proj1 (proj2 (Hf _ _)))
    | rewrite (proj1 (proj2 (proj2 (Hf _ _))))
    | rewrite (proj1 (proj2 (proj2 (proj2 (Hf _ _)))))
    | rewrite (proj2 (proj2 (proj2 (proj2 (Hf _ _))))) ].

Lemma reset_ball_blind {A : Type} (f : GameEngine -> A) n e g :
  ball_blind f -> f (fst (reset_ball n e g)) = f e.
Proof.
  intros Hf. unfold reset_ball. destruct (random_uniform _ _ g) as [a g']. cbn [fst].
  blind Hf. reflexivity.
Qed.

Lemma _check_paddle_collision_blind {A : Type} (f : GameEngine -> A) n e ev :
  ball_blind f -> f (fst (_check_paddle_collision n e ev)) = f e.
Proof.
  intros Hf. unfold _check_paddle_collision.
  repeat (case_match; simplify_eq/=); blind Hf; reflexivity.
Qed.

(** The tick of the ball, for an observation that does not read the ball:
    it sees the engine change only where a point is scored. *)
Lemma _update_ball_blind dt e ev g :
  exists e2 ev2,
    (forall (A : Type) (f : GameEngine -> A), ball_blind f -> f e2 = f e) /\
    _update_ball dt e ev g =
      if (ball_x e2 <=? of_int 0)%py then
        let e3 := set_score_p2 (score_p2 e2 + 1) e2 in
        (fst (_handle_score e3 g), set_score (Some 2) ev2, snd (_handle_score e3 g))
      else if (ball_x e2 >=? of_int FIELD_WIDTH)%py then
        let e3 := set_score_p1 (score_p1 e2 + 1) e2 in
        (fst (_handle_score e3 g), set_score (Some 1) ev2, snd (_handle_score e3 g))
      else (e2, ev2, g).
Proof.
  unfold _update_ball.
  set (e0 := set_ball_y _ (set_ball_x _ e)).
  set (w := if (ball_y e0 - _ <=? _)%py then _ else _).
  assert (Hw : forall (A : Type) (f : GameEngine -> A), ball_blind f -> f (fst w) = f e).
  { intros A f Hf. subst w e0. repeat case_match; cbn [fst]; blind Hf; reflexivity. }
  destruct w as [e1 ev1]. cbn [fst] in Hw.
  pose proof (fun A f Hf => @_check_paddle_collision_blind A f 1 e1 ev1 Hf) as H1.
  destruct (_check_paddle_collision 1 e1 ev1) as [ea eva]. cbn [fst] in H1.
  pose proof (fun A f Hf => @_check_paddle_collision_blind A f 2 ea eva Hf) as H2.
  destruct (_check_paddle_collision 2 ea eva) as [eb evb]. cbn [fst] in H2.
  exists eb, evb. split.
  - intros A f Hf. rewrite (H2 A f Hf), (H1 A f Hf). apply Hw, Hf.
  - repeat case_match; cbn;
      try match goal with |- context [_handle_score ?x g] =>
            destruct (_handle_score x g) end;
      reflexivity.
Qed.

Lemma ball_blind_flags : ball_blind (@flags F).
Proof. intros v e. repeat split. Qed.

Lemma ball_blind_rules : ball_blind (@rules F).
Proof. intros v e. repeat split. Qed.

Lemma never_undone_refl e : never_undone e e.
Proof. unfold never_undone. repeat split; auto; lia. Qed.

Lemma never_undone_trans e1 e2 e3 :
  never_undone e1 e2 -> never_undone e2 e3 -> never_undone e1 e3.
Proof.
  unfold never_undone.
  intros (A1 & A2 & A3 & A4 & A5 & A6 & A7 & A8 & A9)
         (B1 & B2 & B3 & B4 & B5 & B6 & B7 & B8 & B9).
  repeat split; try congruence; try lia; auto.
Qed.

(** Two engines with the same flags and the same limit, the second with
    scores and a winner at least those of the first. *)
Lemma never_undone_from_views e e' :
  flags e' = flags e -> points_limit e' = points_limit e ->
  score_p1 e <= score_p1 e' -> score_p2 e <= score_p2 e' ->
  (winner e <> None -> winner e' <> None) ->
  never_undone e e'.
Proof.
  unfold flags, never_undone. intros Hf Hl H1 H2 Hw.
  injection Hf as -> -> -> -> ->. repeat split; auto.
Qed.

Lemma reset_ball_never_undone n e g : never_undone e (fst (reset_ball n e g)).
Proof.
  pose proof (reset_ball_blind flags n e g ball_blind_flags) as Hf.
  pose proof (reset_ball_rules n e g) as Hr. unfold rules in Hr.
  injection Hr as _ E2 E3 E4 E5.
  apply never_undone_from_views; try assumption; try lia. congruence.
Qed.

Lemma start_game_never_undone e g : never_undone e (fst (start_game e g)).
Proof.
  unfold start_game. destruct (random_choice _ g) as [n g'].
  apply (never_undone_trans _ (set_status playing e)).
  - unfold never_undone. cbn. repeat split; auto; lia.
  - apply reset_ball_never_undone.
Qed.

Lemma _handle_score_never_undone e g : never_undone e (fst (_handle_score e g)).
Proof.
  unfold _handle_score.
  destruct (score_p1 e >=? points_limit e);
    [unfold never_undone; cbn; repeat split; auto; try lia; discriminate|].
  destruct (score_p2 e >=? points_limit e);
    [unfold never_undone; cbn; repeat split; auto; try lia; discriminate|].
  apply reset_ball_never_undone.
Qed.

Lemma update_never_undone dt e g : never_undone e (snd (fst (update dt e g))).
Proof.
  destruct (Status_eqb (status e) playing) eqn:Hp.
  2:{ rewrite update_not_playing by (intros E; rewrite E in Hp; discriminate).
      apply never_undone_refl. }
  assert (Hs : status e = playing) by (destruct (status e); try discriminate; reflexivity).
  rewrite (update_playing dt e g Hs).
  destruct (_update_ball_blind dt (_update_paddles dt e) no_events g)
    as (e2 & ev2 & Hb & ->).
  assert (Hpf : flags (_update_paddles dt e) = flags e).
  { unfold _update_paddles. repeat case_match; reflexivity. }
  pose proof (Hb _ flags ball_blind_flags) as Hf. rewrite Hpf in Hf.
  pose proof (Hb _ rules ball_blind_rules) as Hr.
  rewrite _update_paddles_rules in Hr. unfold rules in Hr.
  injection Hr as _ E2 E3 E4 E5.
  assert (H02 : never_undone e e2).
  { apply never_undone_from_views; try assumption; try lia. congruence. }
  destruct (ball_x e2 <=? of_int 0)%py;
    [|destruct (ball_x e2 >=? of_int FIELD_WIDTH)%py]; cbn -[_handle_score].
  - apply (never_undone_trans _ e2 _ H02).
    apply (never_undone_trans _ (set_score_p2 (score_p2 e2 + 1) e2));
      [|apply _handle_score_never_undone].
    unfold never_undone. cbn. repeat split; auto; lia.
  - apply (never_undone_trans _ e2 _ H02).
    apply (never_undone_trans _ (set_score_p1 (score_p1 e2 + 1) e2));
      [|apply _handle_score_never_undone].
    unfold never_undone. cbn. repeat split; auto; lia.
  - exact H02.
Qed.

Lemma apply_op_never_undone o e g : never_undone e (fst (apply_op o (e, g))).
Proof.
  destruct o as [n|n|n d|dt|]; cbn [apply_op fst].
  - unfold player_join, never_undone.
    repeat case_match; cbn; repeat split; auto; lia.
  - unfold player_ready.
    set (e1 := if n =? 1 then _ else _).
    assert (H1 : never_undone e e1).
    { subst e1. unfold never_undone. repeat case_match; cbn; repeat split; auto; lia. }
    destruct (player1_ready e1 && player2_ready e1 && _); [|exact H1].
    apply (never_undone_trans _ e1 _ H1), start_game_never_undone.
  - unfold set_paddle_direction, never_undone.
    repeat case_match; cbn; repeat split; auto; lia.
  - pose proof (update_never_undone dt e g) as Hu.
    destruct (update dt e g) as [[ev e'] g']. exact Hu.
  - apply start_game_never_undone.
Qed.

(** X1. Every tick changes the scores by the point its event record names
    and by nothing else: no event, no change; [Some 1], one more point for
    player 1; [Some 2], one more point for player 2; no other event exists,
    and the point limit is never touched. *)
Theorem update_scores_follow_event dt e g :
  let '(ev, e', _) := update dt e g in
  (score_p1 e', score_p2 e') =
    match score ev with
    | None => (score_p1 e, score_p2 e)
    | Some n => if n =? 1 then (score_p1 e + 1, score_p2 e)
                else (score_p1 e, score_p2 e + 1)
    end /\
  (score ev = None \/ score ev = Some 1 \/ score ev = Some 2) /\
  points_limit e' = points_limit e.
Proof.
  destruct (Status_eqb (status e) playing) eqn:Hp.
  2:{ rewrite update_not_playing by (intros E; rewrite E in Hp; discriminate).
      cbn. auto. }
  assert (Hs : status e = playing) by (destruct (status e); try discriminate; reflexivity).
  rewrite (update_playing dt e g Hs).
  destruct (_update_ball_cases dt (_update_paddles dt e) no_events g)
    as (e2 & ev2 & Hr & _ & Hsc & ->).
  rewrite _update_paddles_rules in Hr. unfold rules in Hr.
  injection Hr as _ E2 E3 E4 _. change (score no_events) with (@None Z) in Hsc.
  destruct (ball_x e2 <=? of_int 0)%py;
    [|destruct (ball_x e2 >=? of_int FIELD_WIDTH)%py]; cbn -[_handle_score].
  - destruct (_handle_score_scores (set_score_p2 (score_p2 e2 + 1) e2) g)
      as (-> & -> & ->). cbn. rewrite E2, E3, E4. auto.
  - destruct (_handle_score_scores (set_score_p1 (score_p1 e2 + 1) e2) g)
      as (-> & -> & ->). cbn. rewrite E2, E3, E4. auto.
  - rewrite Hsc, E2, E3, E4. auto.
Qed.

(** X2. Along every sequence of operations of the engine, from any state:
    the room code and the point limit stay what they were, a player once
    connected or ready stays so, no score ever goes down, and a winner once
    named is never unnamed. *)
Theorem operations_never_undo ops e g :
  never_undone e (fst (run ops (e, g))).
Proof.
  revert e g. induction ops as [|o ops IH]; intros e g.
  - apply never_undone_refl.
  - rewrite run_cons. pose proof (apply_op_never_undone o e g) as Ho.
    destruct (apply_op o (e, g)) as [e1 g1]. cbn [fst] in Ho.
    apply (never_undone_trans _ e1 _ Ho), IH.
Qed.

(** X3. [player_join] accepts the numbers 1 and 2 and refuses every other
    number without touching the engine; the status becomes
    waiting_for_ready exactly when the other slot is connected; and joining
    a slot twice is the same as joining it once. *)
Theorem player_join_idempotent n e :
  ((n = 1 \/ n = 2) /\ fst (player_join n e) = true \/
   n <> 1 /\ n <> 2 /\ player_join n e = (false, e)) /\
  status (snd (player_join n e)) =
    (if (n =? 1) && player2_connected e || (n =? 2) && player1_connected e
     then waiting_for_ready else status e) /\
  player_join n (snd (player_join n e)) = player_join n e.
Proof.
  unfold player_join.
  destruct (Z.eqb_spec n 1) as [->|N1]; [|destruct (Z.eqb_spec n 2) as [->|N2]].
  - cbn [Z.eqb Pos.eqb andb orb fst snd].
    destruct e as [rc pl st r1 r2 c1 c2 s1 s2 w y1 y2 d1 d2 bx by_ vx vy sp].
    destruct c2; cbn; repeat split; auto.
  - cbn [Z.eqb Pos.eqb andb orb fst snd].
    destruct e as [rc pl st r1 r2 c1 c2 s1 s2 w y1 y2 d1 d2 bx by_ vx vy sp].
    destruct c1; cbn; repeat split; auto.
  - cbn [andb orb fst snd]. repeat split; auto.
Qed.

(** X4. [player_ready] marks the slot of player 1 or 2 (another number
    marks nothing) and starts the match exactly when, after the mark, both
    slots are ready and the status is waiting_for_ready: marks given before
    the second player has joined are kept but start nothing, and a later
    call starts the match whatever its number. When the match starts the
    ball is at the centre; when it does not, no random number is drawn and
    the status is unchanged. *)
Theorem player_ready_starts_match n e g :
  let r1 := player1_ready e || (n =? 1) in
  let r2 := player2_ready e || (n =? 2) in
  let starts := r1 && r2 && Status_eqb (status e) waiting_for_ready in
  let e' := fst (player_ready n e g) in
  player1_ready e' = r1 /\ player2_ready e' = r2 /\
  status e' = (if starts then playing else status e) /\
  (if starts
   then ball_x e' = of_int 50 /\ ball_y e' = of_int 50
   else snd (player_ready n e g) = g /\ paddles e' = paddles e /\
        (ball_x e', ball_y e', ball_velocity_x e', ball_velocity_y e') =
        (ball_x e, ball_y e, ball_velocity_x e, ball_velocity_y e)).
Proof.
  cbv zeta. unfold player_ready.
  set (e1 := if n =? 1 then _ else _).
  assert (H1 : player1_ready e1 = player1_ready e || (n =? 1) /\
               player2_ready e1 = player2_ready e || (n =? 2) /\
               status e1 = status e /\ paddles e1 = paddles e /\
               (ball_x e1, ball_y e1, ball_velocity_x e1, ball_velocity_y e1) =
               (ball_x e, ball_y e, ball_velocity_x e, ball_velocity_y e)).
  { subst e1. destruct (Z.eqb_spec n 1) as [->|N1]; [|destruct (Z.eqb_spec n 2)];
      cbn; rewrite ?orb_true_r, ?orb_false_r; auto. }
  destruct H1 as (R1 & R2 & St & Pd & Bl). rewrite <- R1, <- R2, <- St.
  destruct (player1_ready e1 && player2_ready e1 && Status_eqb (status e1) waiting_for_ready).
  - rewrite start_game_status.
    unfold start_game. destruct (random_choice _ g) as [k g'].
    pose proof (reset_ball_position k (set_status playing e1) g') as [Hx Hy].
    pose proof (reset_ball_blind flags k (set_status playing e1) g' ball_blind_flags) as Hf.
    unfold flags in Hf. injection Hf as _ F1 F2 _ _. cbn in F1, F2.
    rewrite F1, F2. repeat split; assumption.
  - cbn [fst snd]. repeat split; assumption.
Qed.

(** A check never clears [paddle_hit], and reads nothing else of the
    event record. *)
Lemma _check_paddle_collision_events n e ev :
  (paddle_hit ev = true -> paddle_hit (snd (_check_paddle_collision n e ev)) = true) /\
  wall_hit (snd (_check_paddle_collision n e ev)) = wall_hit ev /\
  score (snd (_check_paddle_collision n e ev)) = score ev.
Proof.
  unfold _check_paddle_collision.
  repeat (case_match; simplify_eq/=); auto.
Qed.

(** The tick of the ball up to the paddles: the ball moves by its velocity;
    at the top wall it is put at [y = 1] with an upward velocity made
    positive, at the bottom wall at [y = 99] with a velocity made negative,
    and [wall_hit] is set; the paddles are checked from the state [e1] so
    reached. *)
Lemma _update_ball_walls dt e ev g :
  let h := (of_int BALL_SIZE / of_int 2)%py in
  exists e1 ev1,
    ball_x e1 = (ball_x e + ball_velocity_x e)%py /\
    ball_velocity_x e1 = ball_velocity_x e /\
    rules e1 = rules e /\
    paddle_hit ev1 = paddle_hit ev /\ score ev1 = score ev /\
    (wall_hit ev1 = true /\ ball_y e1 = h /\
       ball_velocity_y e1 = fabs (ball_velocity_y e) \/
     wall_hit ev1 = true /\ ball_y e1 = (of_int FIELD_HEIGHT - h)%py /\
       ball_velocity_y e1 = (- fabs (ball_velocity_y e))%py \/
     wall_hit ev1 = wall_hit ev /\ ball_y e1 = (ball_y e + ball_velocity_y e)%py /\
       ball_velocity_y e1 = ball_velocity_y e /\
       (ball_y e1 - h <=? of_int 0)%py = false /\
       (ball_y e1 + h >=? of_int FIELD_HEIGHT)%py = false) /\
    _update_ball dt e ev g =
      let '(ea, eva) := _check_paddle_collision 1 e1 ev1 in
      let '(eb, evb) := _check_paddle_collision 2 ea eva in
      if (ball_x eb <=? of_int 0)%py then
        let e3 := set_score_p2 (score_p2 eb + 1) eb in
        (fst (_handle_score e3 g), set_score (Some 2) evb, snd (_handle_score e3 g))
      else if (ball_x eb >=? of_int FIELD_WIDTH)%py then
        let e3 := set_score_p1 (score_p1 eb + 1) eb in
        (fst (_handle_score e3 g), set_score (Some 1) evb, snd (_handle_score e3 g))
      else (eb, evb, g).
Proof.
  cbv zeta. unfold _update_ball.
  set (e0 := set_ball_y _ (set_ball_x _ e)).
  set (h := (of_int BALL_SIZE / of_int 2)%py).
  assert (Hrest : forall e1 ev1,
    (let '(e3, ev3) := _check_paddle_collision 1 e1 ev1 in
     let '(e4, ev4) := _check_paddle_collision 2 e3 ev3 in
     if (ball_x e4 <=? of_int 0)%py
     then
       let e5 := set_score_p2 (score_p2 e4 + 1) e4 in
       let ev5 := set_score (Some 2) ev4 in
       let '(e6, g0) := _handle_score e5 g in (e6, ev5, g0)
     else
       if (ball_x e4 >=? of_int FIELD_WIDTH)%py
       then
         let e5 := set_score_p1 (score_p1 e4 + 1) e4 in
         let ev5 := set_score (Some 1) ev4 in
         let '(e6, g0) := _handle_score e5 g in (e6, ev5, g0)
       else (e4, ev4, g)) =
    (let '(ea, eva) := _check_paddle_collision 1 e1 ev1 in
     let '(eb, evb) := _check_paddle_collision 2 ea eva in
     if (ball_x eb <=? of_int 0)%py then
       let e3 := set_score_p2 (score_p2 eb + 1) eb in
       (fst (_handle_score e3 g), set_score (Some 2) evb, snd (_handle_score e3 g))
     else if (ball_x eb >=? of_int FIELD_WIDTH)%py then
       let e3 := set_score_p1 (score_p1 eb + 1) eb in
       (fst (_handle_score e3 g), set_score (Some 1) evb, snd (_handle_score e3 g))
     else (eb, evb, g))).
  { intros e1 ev1.
    destruct (_check_paddle_collision 1 e1 ev1) as [ea eva].
    destruct (_check_paddle_collision 2 ea eva) as [eb evb].
    repeat case_match; cbn;
      try match goal with |- context [_handle_score ?x g] =>
            destruct (_handle_score x g) end; reflexivity. }
  destruct (ball_y e0 - h <=? of_int 0)%py eqn:Htop;
    [|destruct (ball_y e0 + h >=? of_int FIELD_HEIGHT)%py eqn:Hbot].
  - exists (set_ball_velocity_y (fabs (ball_velocity_y (set_ball_y h e0))) (set_ball_y h e0)),
      (set_wall_hit true ev).
    repeat (split; [reflexivity|]). split; [|apply Hrest].
    left. repeat split.
  - exists (set_ball_velocity_y
              (- fabs (ball_velocity_y (set_ball_y (of_int FIELD_HEIGHT - h)%py e0)))%py
              (set_ball_y (of_int FIELD_HEIGHT - h)%py e0)),
      (set_wall_hit true ev).
    repeat (split; [reflexivity|]). split; [|apply Hrest].
    right. left. repeat split.
  - exists e0, ev.
    repeat (split; [reflexivity|]). split; [|apply Hrest].
    right. right. repeat split; assumption.
Qed.

Lemma _update_paddles_ball dt e :
  ball_x (_update_paddles dt e) = ball_x e /\
  ball_y (_update_paddles dt e) = ball_y e /\
  ball_velocity_x (_update_paddles dt e) = ball_velocity_x e /\
  ball_velocity_y (_update_paddles dt e) = ball_velocity_y e.
Proof. unfold _update_paddles. repeat case_match; repeat split. Qed.

(** X5. On a tick of a match in play that reports neither a paddle hit nor
    a point, the ball has moved horizontally by exactly its velocity, which
    is unchanged, and the score, the status and the winner are untouched;
    vertically, either no wall is reported and the ball has moved by its
    velocity, or a wall is reported and the ball is exactly at [y = 1] with
    the vertical velocity [abs(vy)], or exactly at [y = 99] with
    [-abs(vy)]. *)
Theorem quiet_tick_moves_ball dt e g :
  status e = playing ->
  paddle_hit (fst (fst (update dt e g))) = false ->
  score (fst (fst (update dt e g))) = None ->
  let ev := fst (fst (update dt e g)) in
  let e' := snd (fst (update dt e g)) in
  let h := (of_int BALL_SIZE / of_int 2)%py in
  ball_x e' = (ball_x e + ball_velocity_x e)%py /\
  ball_velocity_x e' = ball_velocity_x e /\
  rules e' = rules e /\
  (wall_hit ev = false /\ ball_y e' = (ball_y e + ball_velocity_y e)%py /\
     ball_velocity_y e' = ball_velocity_y e \/
   wall_hit ev = true /\ ball_y e' = h /\
     ball_velocity_y e' = fabs (ball_velocity_y e) \/
   wall_hit ev = true /\ ball_y e' = (of_int FIELD_HEIGHT - h)%py /\
     ball_velocity_y e' = (- fabs (ball_velocity_y e))%py).
Proof.
  intros Hs. rewrite (update_playing dt e g Hs).
  destruct (_update_ball_walls dt (_update_paddles dt e) no_events g)
    as (e1 & ev1 & Hx & Hvx & Hr & Hh & Hsc & Hwall & ->).
  destruct (_update_paddles_ball dt e) as (B1 & B2 & B3 & B4).
  rewrite B1, B3 in Hx. rewrite B3 in Hvx. rewrite B2, B4 in Hwall.
  rewrite _update_paddles_rules in Hr.
  change (paddle_hit no_events) with false in Hh.
  change (score no_events) with (@None Z) in Hsc.
  change (wall_hit no_events) with false in Hwall.
  destruct (_check_paddle_collision_events 1 e1 ev1) as (K1 & W1 & S1).
  destruct (paddle_hit (snd (_check_paddle_collision 1 e1 ev1))) eqn:P1.
  { (* a hit by paddle 1 would be reported *)
    destruct (_check_paddle_collision 1 e1 ev1) as [ea eva]. cbn [snd] in P1.
    destruct (_check_paddle_collision_events 2 ea eva) as (K2 & _ & _).
    specialize (K2 P1).
    destruct (_check_paddle_collision 2 ea eva) as [eb evb]. cbn [snd] in K2.
    destruct (ball_x eb <=? of_int 0)%py;
      [|destruct (ball_x eb >=? of_int FIELD_WIDTH)%py];
      cbn [fst snd paddle_hit set_score]; intros Hf; congruence. }
  rewrite (_check_paddle_collision_miss 1 e1 ev1 Hh P1).
  destruct (paddle_hit (snd (_check_paddle_collision 2 e1 ev1))) eqn:P2.
  { destruct (_check_paddle_collision 2 e1 ev1) as [eb evb]. cbn [snd] in P2.
    destruct (ball_x eb <=? of_int 0)%py;
      [|destruct (ball_x eb >=? of_int FIELD_WIDTH)%py];
      cbn [fst snd paddle_hit set_score]; intros Hf; congruence. }
  rewrite (_check_paddle_collision_miss 2 e1 ev1 Hh P2).
  destruct (ball_x e1 <=? of_int 0)%py;
    [|destruct (ball_x e1 >=? of_int FIELD_WIDTH)%py];
    cbn [fst snd score set_score]; try discriminate.
  intros _ _. cbv zeta.
  repeat (split; [assumption|]).
  destruct Hwall as [(W & Y & V)|[(W & Y & V)|(W & Y & V & _)]]; auto.
Qed.


(** [_handle_score] leaves the ball where it is, or at the centre with the
    velocity of a serve. *)
Lemma _handle_score_ball e g :
  (ball_y (fst (_handle_score e g)) = ball_y e /\
   ball_velocity_x (fst (_handle_score e g)) = ball_velocity_x e /\
   ball_velocity_y (fst (_handle_score e g)) = ball_velocity_y e) \/
  (exists n, fst (_handle_score e g) = fst (reset_ball n e g)).
Proof.
  unfold _handle_score.
  destruct (score_p1 e >=? points_limit e); [left; repeat split|].
  destruct (score_p2 e >=? points_limit e); [left; repeat split|].
  right. eexists. reflexivity.
Qed.

(** The paddles after their tick: one step of [PADDLE_SPEED] in the
    direction of each, then the clamp. *)
Lemma _update_paddles_positions dt e :
  let lo := (of_int PADDLE_HEIGHT / of_int 2)%py in
  let hi := (of_int FIELD_HEIGHT - lo)%py in
  let moved (d : string) (y : F) :=
    if String.eqb d "up" then (y - PADDLE_SPEED)%py
    else if String.eqb d "down" then (y + PADDLE_SPEED)%py else y in
  p1_y (_update_paddles dt e) = pymax lo (pymin hi (moved (p1_direction e) (p1_y e))) /\
  p2_y (_update_paddles dt e) = pymax lo (pymin hi (moved (p2_direction e) (p2_y e))).
Proof.
  cbv zeta. unfold _update_paddles.
  destruct (String.eqb (p1_direction e) "up"); [|destruct (String.eqb (p1_direction e) "down")];
    cbn [p2_direction set_p1_y p2_y p1_y];
    (destruct (String.eqb (p2_direction e) "up");
       [|destruct (String.eqb (p2_direction e) "down")]);
    cbn [set_p1_y set_p2_y p1_y p2_y]; split; reflexivity.
Qed.

(** C10. [update] never reads [delta_time]: two calls that differ only by
    it return the same events, the same engine and the same generator
    state.  What a tick of a match in play does is fixed: each paddle moves
    by [PADDLE_SPEED] in its direction ("up" subtracts, "down" adds,
    anything else leaves it) and is clamped to the field, and the ball moves
    by its velocity, whatever [delta_time] is; the position of the ball is
    then what the walls, the paddles and the goal lines make of it, and on
    a tick that reports none of them it is the position before the tick
    plus the velocity. *)
Theorem update_ignores_delta_time dt1 dt2 e g :
  update dt1 e g = update dt2 e g /\
  (status e = playing ->
   let ev := fst (fst (update dt1 e g)) in
   let e' := snd (fst (update dt1 e g)) in
   let lo := (of_int PADDLE_HEIGHT / of_int 2)%py in
   let hi := (of_int FIELD_HEIGHT - lo)%py in
   let moved (d : string) (y : F) :=
     if String.eqb d "up" then (y - PADDLE_SPEED)%py
     else if String.eqb d "down" then (y + PADDLE_SPEED)%py else y in
   p1_y e' = pymax lo (pymin hi (moved (p1_direction e) (p1_y e))) /\
   p2_y e' = pymax lo (pymin hi (moved (p2_direction e) (p2_y e))) /\
   (paddle_hit ev = false -> score ev = None ->
    ball_x e' = (ball_x e + ball_velocity_x e)%py /\
    ball_velocity_x e' = ball_velocity_x e /\
    (wall_hit ev = false ->
     ball_y e' = (ball_y e + ball_velocity_y e)%py /\
     ball_velocity_y e' = ball_velocity_y e))).
Proof.
  split; [reflexivity|]. intros Hs. cbv zeta.
  destruct (_update_paddles_positions dt1 e) as [P1 P2]. cbv zeta in P1, P2.
  rewrite (update_playing dt1 e g Hs).
  pose proof (_update_ball_paddles dt1 (_update_paddles dt1 e) no_events g) as Hp.
  unfold paddles in Hp. injection Hp as Hp1 Hp2.
  destruct (_update_ball_walls dt1 (_update_paddles dt1 e) no_events g)
    as (e1 & ev1 & Hx & Hvx & _ & Hh & Hsc & Hwall & Hball).
  destruct (_update_paddles_ball dt1 e) as (B1 & B2 & B3 & B4).
  rewrite B1, B3 in Hx. rewrite B3 in Hvx. rewrite B2, B4 in Hwall.
  change (paddle_hit no_events) with false in Hh.
  change (wall_hit no_events) with false in Hwall.
  destruct (_update_ball dt1 (_update_paddles dt1 e) no_events g) as [[e2 ev2] g2] eqn:Hu.
  cbn [fst snd] in *.
  split; [rewrite Hp1; exact P1|]. split; [rewrite Hp2; exact P2|].
  intros Hquiet Hnone.
  destruct (_check_paddle_collision_events 1 e1 ev1) as (K1 & W1 & _).
  destruct (paddle_hit (snd (_check_paddle_collision 1 e1 ev1))) eqn:Q1.
  { exfalso.
    destruct (_check_paddle_collision 1 e1 ev1) as [ea eva]. cbn [snd] in Q1.
    destruct (_check_paddle_collision_events 2 ea eva) as (K2 & _ & _).
    specialize (K2 Q1).
    destruct (_check_paddle_collision 2 ea eva) as [eb evb]. cbn [snd] in K2.
    destruct (ball_x eb <=? of_int 0)%py;
      [|destruct (ball_x eb >=? of_int FIELD_WIDTH)%py];
      injection Hball as _ E _; subst ev2; cbn in Hquiet; congruence. }
  rewrite (_check_paddle_collision_miss 1 e1 ev1 Hh Q1) in Hball.
  destruct (paddle_hit (snd (_check_paddle_collision 2 e1 ev1))) eqn:Q2.
  { exfalso.
    destruct (_check_paddle_collision 2 e1 ev1) as [eb evb]. cbn [snd] in Q2.
    destruct (ball_x eb <=? of_int 0)%py;
      [|destruct (ball_x eb >=? of_int FIELD_WIDTH)%py];
      injection Hball as _ E _; subst ev2; cbn in Hquiet; congruence. }
  rewrite (_check_paddle_collision_miss 2 e1 ev1 Hh Q2) in Hball.
  destruct (ball_x e1 <=? of_int 0)%py;
    [|destruct (ball_x e1 >=? of_int FIELD_WIDTH)%py];
    injection Hball as E1 E2 _; subst e2 ev2; cbn in Hnone; try discriminate.
  split; [exact Hx|]. split; [exact Hvx|].
  intros Hw.
  destruct Hwall as [(W & _)|[(W & _)|(_ & Y & V & _)]]; [congruence|congruence|].
  split; assumption.
Qed.

End Laws.
End engine_laws.

(** ** More of the engine on binary64 numbers *)

Module binary64_laws.
Import game_engine engine_facts engine_laws scenario.

Section AnyRuntime.
Context `{PyRuntime float}.
Implicit Types (e : @GameEngine float) (g : Rng) (ev : Events).

(** Where a detected collision leaves the ball: 4.1 in front of player 1's
    paddle, 95.9 in front of player 2's. *)
Lemma hit_positions :
  (of_int PADDLE_WIDTH + of_int PADDLE_WIDTH / of_int 2
   + of_int BALL_SIZE / of_int 2 + dec 1 10)%py = (dec 41 10 : float) /\
  (of_int (FIELD_WIDTH - PADDLE_WIDTH) - of_int PADDLE_WIDTH / of_int 2
   - of_int BALL_SIZE / of_int 2 - dec 1 10)%py = (dec 959 10 : float).
Proof. split; reflexivity. Qed.

Lemma _check_paddle_collision_2_far_float e ev :
  ball_x e = dec 41 10 -> _check_paddle_collision 2 e ev = (e, ev).
Proof.
  intros Hx. unfold _check_paddle_collision. change (2 =? 1) with false. cbv iota beta.
  destruct (ball_velocity_x e >? of_int 0)%py; [|reflexivity]. cbn [negb].
  rewrite Hx.
  match goal with |- (if ?c && _ && _ && _ then _ else _) = _ =>
    change c with false end.
  reflexivity.
Qed.

Lemma no_goal_after_hit_float (x : float) :
  x = dec 41 10 \/ x = dec 959 10 ->
  (x <=? of_int 0)%py = false /\ (x >=? of_int FIELD_WIDTH)%py = false.
Proof. intros [-> | ->]; split; reflexivity. Qed.

(** X6. A tick that reports a paddle hit reports no point: the collision
    puts the ball back in front of the paddle, at exactly [x = 4.1]
    (player 1) or [x = 95.9] (player 2), where it meets neither the other
    paddle nor a goal line; the status, the scores and the winner are those
    before the tick. *)
Theorem paddle_hit_excludes_point dt e g :
  paddle_hit (fst (fst (update dt e g))) = true ->
  let ev := fst (fst (update dt e g)) in
  let e' := snd (fst (update dt e g)) in
  score ev = None /\ rules e' = rules e /\
  (ball_x e' = dec 41 10 \/ ball_x e' = dec 959 10).
Proof.
  destruct (Status_eqb (status e) playing) eqn:Hp.
  2:{ rewrite update_not_playing by (intros E; rewrite E in Hp; discriminate).
      cbn. discriminate. }
  assert (Hs : status e = playing) by (destruct (status e); try discriminate; reflexivity).
  rewrite (update_playing dt e g Hs).
  destruct (_update_ball_walls dt (_update_paddles dt e) no_events g)
    as (e1 & ev1 & _ & _ & Hr & Hh & Hsc & _ & ->).
  rewrite _update_paddles_rules in Hr.
  change (paddle_hit no_events) with false in Hh.
  change (score no_events) with (@None Z) in Hsc.
  destruct hit_positions as [X1 X2].
  destruct (paddle_hit (snd (_check_paddle_collision 1 e1 ev1))) eqn:H1.
  - pose proof (_check_paddle_collision_hit_position 1 e1 ev1 Hh H1) as Hpos.
    pose proof (_check_paddle_collision_rules 1 e1 ev1) as Hr1.
    destruct (_check_paddle_collision_events 1 e1 ev1) as (_ & _ & S1).
    destruct (_check_paddle_collision 1 e1 ev1) as [ea eva]. cbn [fst snd] in *.
    change (1 =? 1) with true in Hpos. cbv iota in Hpos. rewrite X1 in Hpos.
    rewrite (_check_paddle_collision_2_far_float ea eva Hpos).
    destruct (no_goal_after_hit_float (ball_x ea) (or_introl Hpos)) as [-> ->].
    cbn [fst snd]. intros _. repeat split; [congruence|congruence|left; exact Hpos].
  - rewrite (_check_paddle_collision_miss 1 e1 ev1 Hh H1).
    destruct (paddle_hit (snd (_check_paddle_collision 2 e1 ev1))) eqn:H2.
    + pose proof (_check_paddle_collision_hit_position 2 e1 ev1 Hh H2) as Hpos.
      pose proof (_check_paddle_collision_rules 2 e1 ev1) as Hr2.
      destruct (_check_paddle_collision_events 2 e1 ev1) as (_ & _ & S2).
      destruct (_check_paddle_collision 2 e1 ev1) as [eb evb]. cbn [fst snd] in *.
      change (2 =? 1) with false in Hpos. cbv iota in Hpos. rewrite X2 in Hpos.
      destruct (no_goal_after_hit_float (ball_x eb) (or_intror Hpos)) as [-> ->].
      cbn [fst snd]. intros _. repeat split; [congruence|congruence|right; exact Hpos].
    + rewrite (_check_paddle_collision_miss 2 e1 ev1 Hh H2).
      destruct (ball_x e1 <=? of_int 0)%py;
        [|destruct (ball_x e1 >=? of_int FIELD_WIDTH)%py];
        cbn [fst snd paddle_hit set_score]; rewrite Hh; discriminate.
Qed.


End AnyRuntime.

(** A serve from the centre: after one tick the ball has moved by its
    velocity and nothing else has changed. *)
Lemma quiet_tick_moves_ball_witness :
  (status centre_serve = playing /\
   paddle_hit (fst (fst (update tick centre_serve seed))) = false /\
   score (fst (fst (update tick centre_serve seed))) = None) /\
  ball_x (snd (fst (update tick centre_serve seed)))
  = (ball_x centre_serve + ball_velocity_x centre_serve)%py /\
  rules (snd (fst (update tick centre_serve seed))) = rules centre_serve.
Proof.
  assert (H1 : status centre_serve = playing) by reflexivity.
  assert (H2 : paddle_hit (fst (fst (update tick centre_serve seed))) = false)
    by (vm_compute; reflexivity).
  assert (H3 : score (fst (fst (update tick centre_serve seed))) = None)
    by (vm_compute; reflexivity).
  split; [repeat split; assumption|].
  destruct (quiet_tick_moves_ball tick centre_serve seed H1 H2 H3) as (Hx & _ & Hr & _).
  split; assumption.
Defined.

(** The ball meets player 1's paddle below its centre: no point, and the
    ball is back at [x = 4.1]. *)
Lemma paddle_hit_excludes_point_witness :
  paddle_hit (fst (fst (update tick off_centre_hit seed))) = true /\
  score (fst (fst (update tick off_centre_hit seed))) = None /\
  rules (snd (fst (update tick off_centre_hit seed))) = rules off_centre_hit.
Proof.
  assert (H1 : paddle_hit (fst (fst (update tick off_centre_hit seed))) = true)
    by (vm_compute; reflexivity).
  split; [exact H1|].
  destruct (paddle_hit_excludes_point tick off_centre_hit seed H1) as (Hs & Hr & _).
  split; assumption.
Defined.


(** Player 1 moves up during a serve from the centre, with ticks of 1/60
    and of 1/30. *)
Lemma update_ignores_delta_time_witness :
  let e := set_paddle_direction 1 "up" centre_serve in
  let e' := snd (fst (update tick e seed)) in
  update tick e seed = update (dec 1 30) e seed /\
  status e = playing /\
  p1_y e' = (p1_y e - PADDLE_SPEED)%py /\
  ball_x e' = (ball_x e + ball_velocity_x e)%py.
Proof.
  cbv zeta.
  pose proof (update_ignores_delta_time tick (dec 1 30)
                (set_paddle_direction 1 "up" centre_serve) seed) as [Hsame Hstep].
  assert (Hs : status (set_paddle_direction 1 "up" centre_serve) = playing) by reflexivity.
  destruct (Hstep Hs) as (P1 & _ & Hball).
  split; [exact Hsame|]. split; [exact Hs|].
  split.
  - rewrite P1. vm_compute. reflexivity.
  - apply Hball; vm_compute; reflexivity.
Defined.

End binary64_laws.


(** ** Connections, the ready signal and the simulation loop *)

Module consumer_laws.
Import game_engine engine_facts consumers.

Section Handlers.
Context {F : Type} `{PyFloat F} `{PyRuntime F}.
Implicit Types (self c : Consumer) (room : @Room F) (rooms : gmap string (@Room F))
  (data : gmap string json) (s : @Server F _).

(** What [handle_join_game] does to the consumer and to its room. *)
Lemma handle_join_game_room data self rooms room :
  rooms !! room_code self = Some room ->
  exists self' room' effects,
    handle_join_game data self rooms
    = Ok (self', <[room_code self := room']> rooms, effects) /\
    room_code self' = room_code self /\ channel_name self' = channel_name self /\
    engine room' <> None /\ task room' = task room /\
    (player_num self' = player_num self /\ players room' = players room \/
     exists n, (n = 1 \/ n = 2) /\ players room !! n = None /\
               player_num self' = Some n /\
               players room' = <[n := channel_name self]> (players room)).
Proof.
  intros Hroom. unfold handle_join_game. rewrite Hroom.
  destruct (json_eq_str (dict_get data "role" (JStr "player")) "player").
  - destruct (bool_decide (players room !! 1 = None)) eqn:S1;
      [|destruct (bool_decide (players room !! 2 = None)) eqn:S2].
    + apply bool_decide_eq_true in S1.
      repeat case_match; simplify_eq; eexists _, _, _;
        (split; [reflexivity|]); cbn; repeat split; try discriminate;
        right; exists 1; repeat split; auto.
    + apply bool_decide_eq_true in S2.
      repeat case_match; simplify_eq; eexists _, _, _;
        (split; [reflexivity|]); cbn; repeat split; try discriminate;
        right; exists 2; repeat split; auto.
    + repeat case_match; simplify_eq; eexists _, _, _;
        (split; [reflexivity|]); cbn; repeat split; try discriminate;
        left; split; reflexivity.
  - repeat case_match; simplify_eq; eexists _, _, _;
      (split; [reflexivity|]); cbn; repeat split; try discriminate;
      left; split; reflexivity.
Qed.

Lemma handle_join_game_no_room data self rooms :
  rooms !! room_code self = None ->
  handle_join_game data self rooms = Ok (self, rooms, [send (error "Room does not exist")]).
Proof. intros Hroom. unfold handle_join_game. rewrite Hroom. reflexivity. Qed.


Lemma playing_as_player_num self n :
  playing_as self = Some n -> player_num self = Some n /\ role self = Some "player".
Proof.
  unfold playing_as. intros Hp.
  destruct (bool_decide (role self = Some "player")) eqn:Hr; [|discriminate].
  apply bool_decide_eq_true in Hr.
  destruct (player_num self) as [m|]; [|discriminate].
  destruct (m =? 0); [discriminate|]. split; congruence.
Qed.

(** What [disconnect] does to the room of the consumer: the slot of a
    player is freed, or the players stay; the room is deleted when nobody
    is left in it. *)
Lemma disconnect_room close_code self rooms room :
  rooms !! room_code self = Some room ->
  exists room',
    engine room' = engine room /\ task room' = task room /\
    (players room' = players room \/
     exists n, playing_as self = Some n /\ players room' = delete n (players room)) /\
    (observers room' = observers room \/
     observers room' = list_remove (channel_name self) (observers room)) /\
    (players room' = ∅ /\ observers room' = [] /\
     (disconnect close_code self rooms).1.2 = delete (room_code self) rooms \/
     ~ (players room' = ∅ /\ observers room' = []) /\
     (disconnect close_code self rooms).1.2 = <[room_code self := room']> rooms).
Proof.
  intros Hroom. unfold disconnect. rewrite Hroom.
  set (left_ := match playing_as self with Some n => _ | None => _ end).
  assert (Hleft : engine left_.1 = engine room /\ task left_.1 = task room /\
            (players left_.1 = players room \/
             exists n, playing_as self = Some n /\
                       players left_.1 = delete n (players room)) /\
            (observers left_.1 = observers room \/
             observers left_.1 = list_remove (channel_name self) (observers room))).
  { subst left_. destruct (playing_as self) as [n|].
    - cbn [fst]. case_bool_decide as Hin; cbn.
      + repeat split; [|left; reflexivity]. right. exists n. split; reflexivity.
      + repeat split; left; reflexivity.
    - repeat case_match; simplify_eq; cbn; repeat split;
        (left; reflexivity) || (right; reflexivity). }
  destruct left_ as [room' actions]. cbn [fst] in Hleft.
  destruct Hleft as (He & Ht & Hp & Ho).
  exists room'. split; [exact He|]. split; [exact Ht|]. split; [exact Hp|].
  split; [exact Ho|].
  destruct (bool_decide (players room' = ∅)) eqn:E1;
    [destruct (bool_decide (observers room' = [])) eqn:E2|]; cbn.
  - apply bool_decide_eq_true in E1. apply bool_decide_eq_true in E2.
    left. repeat split; assumption.
  - apply bool_decide_eq_false in E2. right. split; [intros [_ ?]; contradiction|reflexivity].
  - apply bool_decide_eq_false in E1. right. split; [intros [? _]; contradiction|reflexivity].
Qed.

Lemma disconnect_no_room close_code self rooms :
  rooms !! room_code self = None ->
  disconnect close_code self rooms
  = (self, rooms, [group_discard (room_group_name self) (channel_name self)]).
Proof. intros Hroom. unfold disconnect. rewrite Hroom. reflexivity. Qed.

(** What [handle_player_ready] does: nothing, or an exception for a player
    whose room has no engine, or the engine's [player_ready] and a task
    that is running if the match is in play. *)
Lemma handle_player_ready_room self rooms g :
  handle_player_ready self rooms g = Ok (self, rooms, g, []) \/
  exists n room,
    playing_as self = Some n /\ rooms !! room_code self = Some room /\
    match engine room with
    | None => exists exc, handle_player_ready self rooms g = Raise exc
    | Some e =>
      exists room' effects,
        handle_player_ready self rooms g
        = Ok (self, <[room_code self := room']> rooms, (player_ready n e g).2, effects) /\
        engine room' = Some (player_ready n e g).1 /\
        players room' = players room /\ observers room' = observers room /\
        (if running (task room) then task room' = task room
         else if Status_eqb (status (player_ready n e g).1) playing
              then task room' = Some {| done_ := false |}
              else task room' = task room)
    end.
Proof.
  unfold handle_player_ready.
  destruct (playing_as self) as [n|]; [|left; reflexivity].
  destruct (rooms !! room_code self) as [room|] eqn:Hroom; [|left; reflexivity].
  right. exists n, room. split; [reflexivity|]. split; [reflexivity|].
  destruct (engine room) as [e|]; [|eexists; reflexivity].
  destruct (player_ready n e g) as [e' g'] eqn:Hr. cbn [fst snd].
  eexists _, _. split; [reflexivity|].
  destruct (Status_eqb (status e') playing); destruct (running (task room)) eqn:Hrun;
    cbn; rewrite ?Hrun; repeat split.
Qed.

(** What [handle_move_paddle] does: nothing, or an exception for a player
    whose room has no engine, or a new direction in the engine. *)
Lemma handle_move_paddle_room data self rooms :
  handle_move_paddle data self rooms = Ok (self, rooms, []) \/
  exists n room,
    playing_as self = Some n /\ rooms !! room_code self = Some room /\
    match engine room with
    | None => exists exc, handle_move_paddle data self rooms = Raise exc
    | Some e =>
      exists direction,
        handle_move_paddle data self rooms
        = Ok (self,
              <[room_code self := set_engine (Some (set_paddle_direction n direction e)) room]>
                rooms, [])
    end.
Proof.
  unfold handle_move_paddle, playing_as.
  case_bool_decide as Hr; cbn [negb]; [|left; reflexivity].
  destruct (player_num self) as [n|]; [|left; reflexivity].
  destruct (n =? 0); [left; reflexivity|].
  destruct (rooms !! room_code self) as [room|] eqn:Hroom; [|left; reflexivity].
  destruct (engine room) as [e|] eqn:He.
  2:{ right. exists n, room. rewrite He. repeat split. eexists; reflexivity. }
  destruct (negb (Status_eqb (status e) playing)); [left; reflexivity|].
  destruct (dict_get data "direction" (JStr "stop")) as [| | |d| |]; try (left; reflexivity).
  destruct (negb (existsb (String.eqb d) ["up"; "down"; "stop"])); [left; reflexivity|].
  right. exists n, room. rewrite He. repeat split. exists d. reflexivity.
Qed.


(** A room that is written back keeps the server seated when its slots are
    1 and 2, it has an engine if it has a player, and the numbered
    consumers of the room hold their slots in it. *)
Lemma seated_insert s code room' (sockets' : gmap string Consumer) (g' : Rng) :
  seated s ->
  (forall n, is_Some (players room' !! n) -> n = 1 \/ n = 2) ->
  (players room' <> ∅ -> engine room' <> None) ->
  (forall ch c, sockets' !! ch = Some c -> channel_name c = ch) ->
  (forall ch c n, sockets' !! ch = Some c -> player_num c = Some n ->
     (room_code c = code /\ players room' !! n = Some ch) \/
     (room_code c <> code /\
      exists room, active_rooms s !! room_code c = Some room /\
                   players room !! n = Some ch)) ->
  seated {| active_rooms := <[code := room']> (active_rooms s);
            sockets := sockets'; rng := g' |}.
Proof.
  intros (Ha & Hb & Hc) Hkeys Heng Hnames Hslots.
  split; [exact Hnames|]. split; cbn [active_rooms sockets].
  - intros ch c n Hs Hn.
    destruct (Hslots ch c n Hs Hn) as [(-> & Hp)|(Hne & room & Hr & Hp)].
    + exists room'. rewrite lookup_insert_eq. split; [reflexivity|exact Hp].
    + exists room. rewrite lookup_insert_ne by congruence. split; assumption.
  - intros code' room. destruct (decide (code = code')) as [<-|Hne].
    + rewrite lookup_insert_eq. intros [= <-]. split; assumption.
    + rewrite lookup_insert_ne by exact Hne. apply Hc.
Qed.

Lemma seated_sockets s ch c :
  seated s -> sockets s !! ch = Some c ->
  forall ch' c' n,
    <[ch := c]> (sockets s) !! ch' = Some c' -> player_num c' = Some n ->
    exists room, active_rooms s !! room_code c' = Some room /\
                 players room !! n = Some ch'.
Proof.
  intros (Ha & Hb & Hc) Hs ch' c' n Hs' Hn.
  rewrite insert_id in Hs' by exact Hs. exact (Hb ch' c' n Hs' Hn).
Qed.

(** Every incident keeps the server seated. *)
Lemma serve_seated s i : seated s -> seated (serve s i).
Proof.
  intros Hseated. pose proof Hseated as (Ha & Hb & Hc).
  destruct i as [ch url|ch data|ch|ch data|ch cc|code|code]; cbn [serve].
  - (* a socket opens *)
    unfold connect. cbn [room_code room_group_name channel_name].
    assert (Hnames : forall ch' c',
              <[ch := {| room_code := url; room_group_name := "pong_" +:+ url;
                         role := None; player_num := None; channel_name := ch |}]>
                (sockets s) !! ch' = Some c' -> channel_name c' = ch').
    { intros ch' c'. destruct (decide (ch = ch')) as [<-|Hne].
      - rewrite lookup_insert_eq. intros [= <-]. reflexivity.
      - rewrite lookup_insert_ne by exact Hne. apply Ha. }
    assert (Hold : forall ch' c' n,
              <[ch := {| room_code := url; room_group_name := "pong_" +:+ url;
                         role := None; player_num := None; channel_name := ch |}]>
                (sockets s) !! ch' = Some c' -> player_num c' = Some n ->
              exists room, active_rooms s !! room_code c' = Some room /\
                           players room !! n = Some ch').
    { intros ch' c' n. destruct (decide (ch = ch')) as [<-|Hne].
      - rewrite lookup_insert_eq. intros [= <-]. discriminate.
      - rewrite lookup_insert_ne by exact Hne. apply Hb. }
    case_bool_decide as Hroom.
    + apply seated_insert; try assumption.
      * intros n [x Hx]. cbn in Hx. rewrite lookup_empty in Hx. discriminate.
      * intros Hne. cbn in Hne. contradiction.
      * intros ch' c' n Hs Hn. right.
        destruct (Hold ch' c' n Hs Hn) as (room & Hr & Hp).
        split; [intros E; rewrite E, Hroom in Hr; discriminate|].
        exists room. split; assumption.
    + split; [exact Hnames|]. split; [exact Hold|exact Hc].
  - (* join_game *)
    destruct (sockets s !! ch) as [c|] eqn:Hs; [|exact Hseated].
    pose proof (Ha ch c Hs) as Hch.
    destruct (active_rooms s !! room_code c) as [room|] eqn:Hroom.
    2:{ rewrite (handle_join_game_no_room data c _ Hroom).
        rewrite insert_id by exact Hs. destruct s; exact Hseated. }
    destruct (handle_join_game_room data c _ room Hroom)
      as (c' & room' & effects & -> & Hcode & Hname & Heng & _ & Hplayers).
    destruct (Hc _ _ Hroom) as [Hkeys Hengine].
    apply seated_insert; try assumption.
    + intros n Hn. destruct Hplayers as [(_ & Hp)|(m & Hm & _ & _ & Hp)].
      * rewrite Hp in Hn. exact (Hkeys n Hn).
      * rewrite Hp in Hn. destruct (decide (m = n)) as [<-|Hne]; [exact Hm|].
        rewrite lookup_insert_ne in Hn by exact Hne. exact (Hkeys n Hn).
    + intros _. exact Heng.
    + intros ch' c''. destruct (decide (ch = ch')) as [<-|Hne].
      * rewrite lookup_insert_eq. intros [= <-]. congruence.
      * rewrite lookup_insert_ne by exact Hne. apply Ha.
    + intros ch' c'' n. destruct (decide (ch = ch')) as [<-|Hne].
      * rewrite lookup_insert_eq. intros [= <-] Hn. left. split; [exact Hcode|].
        destruct Hplayers as [(Hpn & Hp)|(m & _ & _ & Hpn & Hp)].
        -- rewrite Hpn in Hn. destruct (Hb ch c n Hs Hn) as (room0 & Hr0 & Hp0).
           rewrite Hp. congruence.
        -- rewrite Hp. assert (m = n) as -> by congruence.
           rewrite lookup_insert_eq. congruence.
      * rewrite lookup_insert_ne by exact Hne. intros Hs' Hn.
        destruct (Hb ch' c'' n Hs' Hn) as (room0 & Hr0 & Hp0).
        destruct (decide (room_code c'' = room_code c)) as [E|E].
        -- left. split; [exact E|]. rewrite E, Hroom in Hr0. injection Hr0 as <-.
           destruct Hplayers as [(_ & Hp)|(m & _ & Hfree & _ & Hp)].
           ++ rewrite Hp. exact Hp0.
           ++ rewrite Hp. rewrite lookup_insert_ne; [exact Hp0|].
              intros ->. congruence.
        -- right. split; [exact E|]. exists room0. split; assumption.
  - (* player_ready *)
    destruct (sockets s !! ch) as [c|] eqn:Hs; [|exact Hseated].
    destruct (handle_player_ready_room c (active_rooms s) (rng s))
      as [->|(n & room & Hn & Hroom & Hcases)].
    { rewrite insert_id by exact Hs. destruct s; exact Hseated. }
    destruct (engine room) as [e|] eqn:He.
    2:{ destruct Hcases as [exc ->]. exact Hseated. }
    destruct Hcases as (room' & effects & -> & Heng & Hp & _).
    destruct (Hc _ _ Hroom) as [Hkeys Hengine].
    apply seated_insert; try assumption.
    + rewrite Hp. exact Hkeys.
    + intros _. rewrite Heng. discriminate.
    + intros ch' c'. rewrite insert_id by exact Hs. apply Ha.
    + intros ch' c' m Hs' Hm.
      destruct (seated_sockets s ch c Hseated Hs ch' c' m Hs' Hm) as (room0 & Hr0 & Hp0).
      destruct (decide (room_code c' = room_code c)) as [E|E].
      * left. split; [exact E|]. rewrite E, Hroom in Hr0. injection Hr0 as <-.
        rewrite Hp. exact Hp0.
      * right. split; [exact E|]. exists room0. split; assumption.
  - (* move_paddle *)
    destruct (sockets s !! ch) as [c|] eqn:Hs; [|exact Hseated].
    destruct (handle_move_paddle_room data c (active_rooms s))
      as [->|(n & room & Hn & Hroom & Hcases)].
    { rewrite insert_id by exact Hs. destruct s; exact Hseated. }
    destruct (engine room) as [e|] eqn:He.
    2:{ destruct Hcases as [exc ->]. exact Hseated. }
    destruct Hcases as (direction & ->).
    destruct (Hc _ _ Hroom) as [Hkeys Hengine].
    apply seated_insert; try assumption.
    + intros _. discriminate.
    + intros ch' c'. rewrite insert_id by exact Hs. apply Ha.
    + intros ch' c' m Hs' Hm.
      destruct (seated_sockets s ch c Hseated Hs ch' c' m Hs' Hm) as (room0 & Hr0 & Hp0).
      destruct (decide (room_code c' = room_code c)) as [E|E].
      * left. split; [exact E|]. rewrite E, Hroom in Hr0. injection Hr0 as <-.
        exact Hp0.
      * right. split; [exact E|]. exists room0. split; assumption.
  - (* a socket closes *)
    destruct (sockets s !! ch) as [c|] eqn:Hs; [|exact Hseated].
    pose proof (Ha ch c Hs) as Hch.
    assert (Hnames : forall ch' c', delete ch (sockets s) !! ch' = Some c' ->
                                    channel_name c' = ch').
    { intros ch' c' Hs'. apply lookup_delete_Some in Hs' as [_ Hs']. exact (Ha _ _ Hs'). }
    destruct (active_rooms s !! room_code c) as [room|] eqn:Hroom.
    2:{ rewrite (disconnect_no_room cc c _ Hroom).
        split; [exact Hnames|]. split; [|exact Hc]. cbn [active_rooms sockets].
        intros ch' c' n Hs' Hn. apply lookup_delete_Some in Hs' as [_ Hs'].
        exact (Hb _ _ _ Hs' Hn). }
    destruct (disconnect_room cc c _ room Hroom)
      as (room' & Heng & _ & Hplayers & _ & Hrooms).
    destruct (disconnect cc c (active_rooms s)) as [[c0 rooms'] actions].
    cbn [fst snd] in Hrooms.
    destruct (Hc _ _ Hroom) as [Hkeys Hengine].
    assert (Hsub : forall n x, players room' !! n = Some x -> players room !! n = Some x).
    { intros n x Hx. destruct Hplayers as [Hp|(m & _ & Hp)]; rewrite Hp in Hx.
      - exact Hx.
      - apply lookup_delete_Some in Hx as [_ Hx]. exact Hx. }
    assert (Hothers : forall ch' c' n,
              delete ch (sockets s) !! ch' = Some c' -> player_num c' = Some n ->
              room_code c' = room_code c -> players room' !! n = Some ch').
    { intros ch' c' n Hs' Hn E. apply lookup_delete_Some in Hs' as [Hne Hs'].
      destruct (Hb _ _ _ Hs' Hn) as (room0 & Hr0 & Hp0).
      rewrite E, Hroom in Hr0. injection Hr0 as <-.
      destruct Hplayers as [Hp|(m & Hm & Hp)]; rewrite Hp; [exact Hp0|].
      rewrite lookup_delete_ne; [exact Hp0|]. intros ->.
      apply playing_as_player_num in Hm as [Hm _].
      destruct (Hb _ _ _ Hs Hm) as (room1 & Hr1 & Hp1).
      rewrite Hroom in Hr1. injection Hr1 as <-. congruence. }
    destruct Hrooms as [(Hempty & _ & ->)|(_ & ->)].
    + split; [exact Hnames|]. split; cbn [active_rooms sockets].
      * intros ch' c' n Hs' Hn.
        destruct (decide (room_code c' = room_code c)) as [E|E].
        -- pose proof (Hothers ch' c' n Hs' Hn E) as Hp.
           rewrite Hempty, lookup_empty in Hp. discriminate.
        -- apply lookup_delete_Some in Hs' as [_ Hs'].
           destruct (Hb _ _ _ Hs' Hn) as (room0 & Hr0 & Hp0).
           exists room0. rewrite lookup_delete_ne by congruence. split; assumption.
      * intros code room0 Hr0. apply lookup_delete_Some in Hr0 as [_ Hr0].
        exact (Hc _ _ Hr0).
    + apply seated_insert; try assumption.
      * intros n [x Hx]. apply Hkeys. exists x. exact (Hsub n x Hx).
      * intros Hne. rewrite Heng. apply Hengine. intros E. apply Hne.
        apply map_eq. intros n. rewrite lookup_empty.
        destruct (players room' !! n) as [x|] eqn:Hx; [|reflexivity].
        apply Hsub in Hx. rewrite E, lookup_empty in Hx. discriminate.
      * intros ch' c' n Hs' Hn.
        destruct (decide (room_code c' = room_code c)) as [E|E].
        -- left. split; [exact E|]. exact (Hothers ch' c' n Hs' Hn E).
        -- right. split; [exact E|]. apply lookup_delete_Some in Hs' as [_ Hs'].
           exact (Hb _ _ _ Hs' Hn).
  - (* the loop updates the engine *)
    destruct (active_rooms s !! code) as [room|] eqn:Hroom; [|exact Hseated].
    destruct (engine room) as [e|] eqn:He; [|exact Hseated].
    destruct (update tick_rate e (rng s)) as [[ev e'] g'].
    destruct (Hc _ _ Hroom) as [Hkeys Hengine].
    apply seated_insert; try assumption.
    + intros _. discriminate.
    + intros ch' c' n Hs' Hn. destruct (Hb _ _ _ Hs' Hn) as (room0 & Hr0 & Hp0).
      destruct (decide (room_code c' = code)) as [E|E].
      * left. split; [exact E|]. rewrite E, Hroom in Hr0. injection Hr0 as <-. exact Hp0.
      * right. split; [exact E|]. exists room0. split; assumption.
  - (* the task is done *)
    destruct (active_rooms s !! code) as [room|] eqn:Hroom; [|exact Hseated].
    destruct (task room) as [t|] eqn:Ht; [|exact Hseated].
    destruct (Hc _ _ Hroom) as [Hkeys Hengine].
    apply seated_insert; try assumption.
    intros ch' c' n Hs' Hn. destruct (Hb _ _ _ Hs' Hn) as (room0 & Hr0 & Hp0).
    destruct (decide (room_code c' = code)) as [E|E].
    + left. split; [exact E|]. rewrite E, Hroom in Hr0. injection Hr0 as <-. exact Hp0.
    + right. split; [exact E|]. exists room0. split; assumption.
Qed.

Lemma history_seated l s : seated s -> seated (history l s).
Proof.
  revert s. induction l as [|i l IH]; intros s Hs; [exact Hs|].
  cbn. apply IH, serve_seated, Hs.
Qed.

Lemma empty_server_seated g : seated (empty_server g).
Proof.
  split; [|split]; cbn; intros *; rewrite lookup_empty; discriminate.
Qed.


Lemma json_eq_str_player v :
  json_eq_str v "player" = true -> json_eq_str v "observer" = false.
Proof.
  destruct v as [| | |t| |]; cbn; try discriminate.
  intros Ht. apply String.eqb_eq in Ht as ->. reflexivity.
Qed.

Lemma list_remove_last (x : string) : list_remove x [x] = [].
Proof. cbn. rewrite String.eqb_refl. reflexivity. Qed.

(** X10. A socket that opens on a room code that the registry does not
    hold, sends one [join_game] message, whatever it says, and closes,
    leaves the registry exactly as it was: [connect] registers the room,
    [handle_join_game] succeeds, and [disconnect] takes the consumer out of
    the room and deletes the room that it leaves empty. *)
Theorem lone_visitor_leaves_no_trace url self rooms data close_code :
  rooms !! url = None ->
  exists c2 r2 effects,
    handle_join_game data (connect url self rooms).1.1 (connect url self rooms).1.2
    = Ok (c2, r2, effects) /\
    (disconnect close_code c2 r2).1.2 = rooms.
Proof.
  intros Hfree. unfold connect. cbn [room_code].
  rewrite bool_decide_eq_true_2 by exact Hfree. cbn [fst snd].
  unfold handle_join_game. cbn [room_code]. rewrite lookup_insert_eq.
  assert (Hback : forall room : @Room F,
            delete url (<[url := room]> (<[url := new_room]> rooms)) = rooms).
  { intros room. rewrite delete_insert_eq. apply delete_insert_id, Hfree. }
  destruct (json_eq_str (dict_get data "role" (JStr "player")) "player") eqn:Hplayer.
  - rewrite bool_decide_eq_true_2 by apply lookup_empty.
    rewrite (json_eq_str_player _ Hplayer).
    eexists _, _, _. split; [reflexivity|].
    unfold disconnect, playing_as. cbn [room_code role player_num set_role set_player_num].
    rewrite lookup_insert_eq. cbn [players set_players set_engine observers task engine new_room].
    rewrite bool_decide_eq_true_2 by reflexivity. cbn [Z.eqb].
    rewrite lookup_insert_eq. rewrite bool_decide_eq_true_2 by (eexists; reflexivity).
    cbn [players set_players observers].
    rewrite delete_insert_eq, delete_empty.
    rewrite !bool_decide_eq_true_2 by reflexivity. cbn [andb fst snd]. apply Hback.
  - destruct (json_eq_str (dict_get data "role" (JStr "player")) "observer") eqn:Hobs.
    + eexists _, _, _. split; [reflexivity|].
      unfold disconnect, playing_as. cbn [room_code role player_num set_role set_player_num].
      rewrite lookup_insert_eq.
      cbn [players set_players set_engine set_observers observers task engine new_room
           channel_name app].
      rewrite bool_decide_eq_false_2 by discriminate.
      rewrite bool_decide_eq_true_2 by reflexivity.
      cbn [existsb]. rewrite String.eqb_refl. cbn [orb].
      cbn [players set_observers observers]. rewrite list_remove_last.
      rewrite !bool_decide_eq_true_2 by reflexivity. cbn [andb fst snd]. apply Hback.
    + eexists _, _, _. split; [reflexivity|].
      unfold disconnect, playing_as. cbn [room_code role player_num set_role set_player_num].
      rewrite lookup_insert_eq.
      cbn [players set_players set_engine set_observers observers task engine new_room].
      rewrite bool_decide_eq_true_2 by reflexivity.
      rewrite bool_decide_eq_false_2 by discriminate.
      cbn [players observers].
      rewrite !bool_decide_eq_true_2 by reflexivity. cbn [andb fst snd]. apply Hback.
Qed.


(** X11. A consumer that asks twice to play in a room whose two slots are
    free is given slot 1 and then slot 2, its channel filed under both;
    when it disconnects only slot 2, the one that [player_num] names, is
    freed: the room stays in the registry with slot 1 still holding the
    channel of the consumer that has left. *)
Theorem second_join_strands_first_slot data self rooms room close_code :
  rooms !! room_code self = Some room ->
  players room !! 1 = None -> players room !! 2 = None ->
  json_eq_str (dict_get data "role" (JStr "player")) "player" = true ->
  exists c1 r1 e1 c2 r2 e2 room',
    handle_join_game data self rooms = Ok (c1, r1, e1) /\
    handle_join_game data c1 r1 = Ok (c2, r2, e2) /\
    player_num c1 = Some 1 /\ player_num c2 = Some 2 /\
    (disconnect close_code c2 r2).1.2 !! room_code self = Some room' /\
    players room' = <[1 := channel_name self]> (players room).
Proof.
  intros Hroom H1 H2 Hplayer.
  eexists _, _, _, _, _, _, _. split.
  { unfold handle_join_game. rewrite Hroom, Hplayer.
    rewrite (bool_decide_eq_true_2 _ H1). rewrite (json_eq_str_player _ Hplayer).
    reflexivity. }
  split.
  { unfold handle_join_game.
    cbn [room_code role player_num channel_name set_role set_player_num].
    rewrite lookup_insert_eq. rewrite Hplayer.
    cbn [players set_players set_engine engine].
    rewrite bool_decide_eq_false_2 by (rewrite lookup_insert_eq; discriminate).
    rewrite bool_decide_eq_true_2 by (rewrite lookup_insert_ne by discriminate; exact H2).
    rewrite (json_eq_str_player _ Hplayer).
    reflexivity. }
  cbn [room_code role player_num channel_name set_role set_player_num].
  split; [reflexivity|]. split; [reflexivity|].
  unfold disconnect, playing_as.
  cbn [room_code role player_num channel_name set_role set_player_num].
  rewrite lookup_insert_eq. rewrite bool_decide_eq_true_2 by reflexivity. cbn [Z.eqb].
  cbn [players set_players set_engine engine task observers].
  rewrite ?lookup_insert_eq.
  rewrite (bool_decide_eq_true_2 (is_Some (Some (channel_name self))))
    by (eexists; reflexivity).
  cbn [players set_players observers].
  rewrite delete_insert_id by (rewrite lookup_insert_ne by discriminate; exact H2).
  rewrite bool_decide_eq_false_2.
  2:{ intros E. apply (f_equal (fun m => m !! 1)) in E.
      rewrite lookup_insert_eq, lookup_empty in E. discriminate. }
  cbn [andb fst snd]. rewrite lookup_insert_eq. split; reflexivity.
Qed.

(** X12. The registry does not record the sockets that are connected to a
    room, only those that have joined: when a consumer disconnects from a
    room that has no player and no observer, whatever its own role, the
    room is deleted, and a [join_game] from any other consumer of that room
    is then answered by the error "Room does not exist" and changes
    nothing. *)
Theorem leaving_an_unjoined_room_deletes_it data self other rooms room close_code :
  rooms !! room_code self = Some room ->
  players room = ∅ -> observers room = [] ->
  room_code other = room_code self ->
  let rooms' := (disconnect close_code self rooms).1.2 in
  rooms' = delete (room_code self) rooms /\
  handle_join_game data other rooms'
  = Ok (other, rooms', [send (error "Room does not exist")]).
Proof.
  intros Hroom Hp Ho Hother. cbv zeta.
  destruct (disconnect_room close_code self rooms room Hroom)
    as (room' & _ & _ & Hplayers & Hobservers & Hrooms).
  assert (Hp' : players room' = ∅).
  { destruct Hplayers as [->|(n & _ & ->)]; [exact Hp|]. rewrite Hp. apply delete_empty. }
  assert (Ho' : observers room' = []).
  { destruct Hobservers as [->| ->]; rewrite Ho; reflexivity. }
  assert (Hdel : (disconnect close_code self rooms).1.2 = delete (room_code self) rooms).
  { destruct Hrooms as [(_ & _ & E)|(Hne & _)]; [exact E|].
    exfalso. apply Hne. split; assumption. }
  split; [exact Hdel|]. rewrite Hdel.
  apply handle_join_game_no_room. rewrite Hother. apply lookup_delete_eq.
Qed.

(** X13. On a server that starts with an empty registry and handles one
    thing at a time (sockets opening and closing, [join_game],
    [player_ready] and [move_paddle] messages, updates of the loops, tasks
    ending), no handler of a connected consumer raises: [handle_join_game],
    [handle_player_ready] and [handle_move_paddle] return normally for every
    message, because a consumer that plays is always seated in a room that
    has an engine. *)
Theorem handlers_never_raise l g ch self data :
  let s := history l (empty_server g) in
  sockets s !! ch = Some self ->
  (exists out, handle_join_game data self (active_rooms s) = Ok out) /\
  (exists out, handle_player_ready self (active_rooms s) (rng s) = Ok out) /\
  (exists out, handle_move_paddle data self (active_rooms s) = Ok out).
Proof.
  cbv zeta. intros Hs.
  pose proof (history_seated l _ (empty_server_seated g)) as (Ha & Hb & Hc).
  set (s := history l (empty_server g)) in *.
  assert (Hengine : forall n room,
            playing_as self = Some n -> active_rooms s !! room_code self = Some room ->
            engine room <> None).
  { intros n room Hn Hroom. apply playing_as_player_num in Hn as [Hn _].
    destruct (Hb ch self n Hs Hn) as (room0 & Hr0 & Hp0).
    rewrite Hroom in Hr0. injection Hr0 as <-.
    apply (Hc _ _ Hroom). intros E. rewrite E, lookup_empty in Hp0. discriminate. }
  split; [|split].
  - destruct (active_rooms s !! room_code self) as [room|] eqn:Hroom.
    + destruct (handle_join_game_room data self _ room Hroom) as (c' & r' & e' & -> & _).
      eexists; reflexivity.
    + rewrite (handle_join_game_no_room data self _ Hroom). eexists; reflexivity.
  - destruct (handle_player_ready_room self (active_rooms s) (rng s))
      as [->|(n & room & Hn & Hroom & Hcases)]; [eexists; reflexivity|].
    pose proof (Hengine n room Hn Hroom) as He.
    destruct (engine room) as [e|]; [|contradiction].
    destruct Hcases as (room' & effects & -> & _). eexists; reflexivity.
  - destruct (handle_move_paddle_room data self (active_rooms s))
      as [->|(n & room & Hn & Hroom & Hcases)]; [eexists; reflexivity|].
    pose proof (Hengine n room Hn Hroom) as He.
    destruct (engine room) as [e|]; [|contradiction].
    destruct Hcases as (direction & ->). eexists; reflexivity.
Qed.

(** X14. On such a server, at every moment: the slots of a room are 1 and
    2 only, so that a room has at most two players; the number of a
    connected consumer names a slot of its registered room that holds its
    own channel; and two connected consumers of one room never have the same
    number. *)
Theorem slots_are_one_and_two l g :
  let s := history l (empty_server g) in
  (forall code room n,
     active_rooms s !! code = Some room -> is_Some (players room !! n) ->
     n = 1 \/ n = 2) /\
  (forall ch self n,
     sockets s !! ch = Some self -> player_num self = Some n ->
     exists room, active_rooms s !! room_code self = Some room /\
                  players room !! n = Some (channel_name self)) /\
  (forall ch ch' c c' n,
     sockets s !! ch = Some c -> sockets s !! ch' = Some c' -> ch <> ch' ->
     room_code c = room_code c' -> player_num c = Some n ->
     player_num c' <> Some n).
Proof.
  cbv zeta.
  pose proof (history_seated l _ (empty_server_seated g)) as (Ha & Hb & Hc).
  set (s := history l (empty_server g)) in *.
  split; [|split].
  - intros code room n Hroom Hn. exact (proj1 (Hc _ _ Hroom) n Hn).
  - intros ch self n Hs Hn. rewrite (Ha _ _ Hs). exact (Hb _ _ _ Hs Hn).
  - intros ch ch' c c' n Hs Hs' Hne Hcode Hn Hn'.
    destruct (Hb _ _ _ Hs Hn) as (room & Hr & Hp).
    destruct (Hb _ _ _ Hs' Hn') as (room' & Hr' & Hp').
    rewrite Hcode, Hr' in Hr. injection Hr as <-. congruence.
Qed.

Lemma player_ready_status_closed n (e : @GameEngine F) g :
  status (player_ready n e g).1 =
  (if (player1_ready e || (n =? 1)) && (player2_ready e || (n =? 2))
      && Status_eqb (status e) waiting_for_ready
   then playing else status e).
Proof.
  unfold player_ready.
  set (e1 := if n =? 1 then _ else _).
  assert (H1 : player1_ready e1 = player1_ready e || (n =? 1) /\
               player2_ready e1 = player2_ready e || (n =? 2) /\
               status e1 = status e).
  { subst e1. destruct (Z.eqb_spec n 1) as [->|N1]; [|destruct (Z.eqb_spec n 2)];
      cbn; rewrite ?orb_true_r, ?orb_false_r; auto. }
  destruct H1 as (R1 & R2 & St). rewrite <- R1, <- R2, <- St.
  destruct (player1_ready e1 && player2_ready e1 && Status_eqb (status e1) waiting_for_ready).
  - apply start_game_status.
  - reflexivity.
Qed.

(** X15. [handle_player_ready] for a player whose room has an engine: the
    engine takes the mark, the status after it is broadcast to the group,
    the players and the observers stay, and a new task is created exactly
    when the match is in play after the mark and the room has no running
    task: when the mark starts the match, and also when the match was in
    play already and its task is done or missing, which restarts the loop;
    a running task is never replaced. *)
Theorem ready_signal_starts_the_loop self rooms g n room e :
  playing_as self = Some n ->
  rooms !! room_code self = Some room -> engine room = Some e ->
  let starts := (player1_ready e || (n =? 1)) && (player2_ready e || (n =? 2))
                && Status_eqb (status e) waiting_for_ready in
  let in_play := starts || Status_eqb (status e) playing in
  exists room',
    handle_player_ready self rooms g
    = Ok (self, <[room_code self := room']> rooms, (player_ready n e g).2,
          [group_send (room_group_name self)
             (status_change (if starts then playing else status e))]) /\
    engine room' = Some (player_ready n e g).1 /\
    players room' = players room /\ observers room' = observers room /\
    task room' = (if in_play && negb (running (task room))
                  then Some {| done_ := false |} else task room).
Proof.
  intros Hn Hroom He. cbv zeta. unfold handle_player_ready. rewrite Hn, Hroom, He.
  pose proof (player_ready_status_closed n e g) as Hst.
  destruct (player_ready n e g) as [e' g'] eqn:Hr. cbn [fst snd] in *.
  rewrite <- Hst.
  assert (Hplay : Status_eqb (status e') playing
                  = (player1_ready e || (n =? 1)) && (player2_ready e || (n =? 2))
                    && Status_eqb (status e) waiting_for_ready
                    || Status_eqb (status e) playing).
  { rewrite Hst.
    destruct ((player1_ready e || (n =? 1)) && (player2_ready e || (n =? 2))
              && Status_eqb (status e) waiting_for_ready); reflexivity. }
  rewrite <- Hplay.
  eexists. split; [reflexivity|].
  cbn [set_engine task].
  destruct (Status_eqb (status e') playing && negb (running (task room)));
    cbn; repeat split.
Qed.


Section Loop.
Variable round : F -> Z -> F.



End Loop.

End Handlers.

Import scenario.

Lemma lone_visitor_leaves_no_trace_witness :
  (∅ : gmap string (@Room float)) !! "ROOM" = None /\
  exists c2 r2 effects,
    handle_join_game ∅ (connect (F := float) "ROOM" carol ∅).1.1
      (connect (F := float) "ROOM" carol ∅).1.2
    = Ok (c2, r2, effects) /\
    (disconnect 1000 c2 r2).1.2 = (∅ : gmap string (@Room float)).
Proof.
  assert (Hfree : (∅ : gmap string (@Room float)) !! "ROOM" = None) by reflexivity.
  split; [exact Hfree|].
  exact (lone_visitor_leaves_no_trace (F := float) "ROOM" carol ∅ ∅ 1000 Hfree).
Defined.

Lemma second_join_strands_first_slot_witness :
  (lobby !! room_code carol = Some new_room /\
   players (@new_room float) !! 1 = None /\ players (@new_room float) !! 2 = None /\
   json_eq_str (dict_get ∅ "role" (JStr "player")) "player" = true) /\
  exists c1 r1 e1 c2 r2 e2 room',
    handle_join_game ∅ carol lobby = Ok (c1, r1, e1) /\
    handle_join_game ∅ c1 r1 = Ok (c2, r2, e2) /\
    player_num c1 = Some 1 /\ player_num c2 = Some 2 /\
    (disconnect 1000 c2 r2).1.2 !! room_code carol = Some room' /\
    players room' = <[1 := channel_name carol]> (players (@new_room float)).
Proof.
  assert (H1 : lobby !! room_code carol = Some new_room) by reflexivity.
  assert (H2 : players (@new_room float) !! 1 = None) by reflexivity.
  assert (H3 : players (@new_room float) !! 2 = None) by reflexivity.
  assert (H4 : json_eq_str (dict_get ∅ "role" (JStr "player")) "player" = true)
    by reflexivity.
  split; [repeat split; assumption|].
  exact (second_join_strands_first_slot ∅ carol lobby new_room 1000 H1 H2 H3 H4).
Defined.

Lemma leaving_an_unjoined_room_deletes_it_witness :
  (lobby !! room_code carol = Some new_room /\
   players (@new_room float) = ∅ /\ observers (@new_room float) = [] /\
   room_code alice = room_code carol) /\
  handle_join_game ∅ alice (disconnect 1000 carol lobby).1.2
  = Ok (alice, (disconnect 1000 carol lobby).1.2, [send (error "Room does not exist")]).
Proof.
  assert (H1 : lobby !! room_code carol = Some new_room) by reflexivity.
  assert (H2 : players (@new_room float) = ∅) by reflexivity.
  assert (H3 : observers (@new_room float) = []) by reflexivity.
  assert (H4 : room_code alice = room_code carol) by reflexivity.
  split; [repeat split; assumption|].
  exact (proj2 (leaving_an_unjoined_room_deletes_it ∅ carol alice lobby new_room 1000
                  H1 H2 H3 H4)).
Defined.

Lemma handlers_never_raise_witness :
  sockets (history opening (empty_server seed)) !! "chan.alice" = Some alice /\
  exists out,
    handle_move_paddle ∅ alice (active_rooms (history opening (empty_server seed)))
    = Ok out.
Proof.
  assert (Hs : sockets (history opening (empty_server seed)) !! "chan.alice" = Some alice)
    by (vm_compute; reflexivity).
  split; [exact Hs|].
  exact (proj2 (proj2 (handlers_never_raise opening seed "chan.alice" alice ∅ Hs))).
Defined.

Lemma ready_signal_starts_the_loop_witness :
  (playing_as alice = Some 1 /\ registry !! room_code alice = Some room_in_play /\
   engine room_in_play = Some centre_serve) /\
  exists room',
    handle_player_ready alice registry seed
    = Ok (alice, <[room_code alice := room']> registry,
          (player_ready 1 centre_serve seed).2,
          [group_send (room_group_name alice) (status_change playing)]) /\
    task room' = task room_in_play.
Proof.
  assert (H1 : playing_as alice = Some 1) by reflexivity.
  assert (H2 : registry !! room_code alice = Some room_in_play) by reflexivity.
  assert (H3 : engine room_in_play = Some centre_serve) by reflexivity.
  split; [repeat split; assumption|].
  destruct (ready_signal_starts_the_loop alice registry seed 1 room_in_play centre_serve
              H1 H2 H3) as (room' & Hr & _ & _ & _ & Ht).
  exists room'. split; [exact Hr|exact Ht].
Defined.


(** C1, on the code. [player_join] sets the status to waiting_for_ready
    whenever the other slot is connected, whatever the status is: it does
    not test the status, as [player_ready] does.  From a new engine, a join
    during play takes the match back to waiting_for_ready.  A match to one
    point that player 2 has won 0-1 is taken back by a join from finished to
    waiting_for_ready, the next ready signal starts it again with its score
    and its winner, and it finishes a second time at 0-2.  The handlers
    reach this: when the loop has ended a match 0-5, a player leaves and a
    new socket asks to play, [handle_join_game] calls [player_join] and the
    status goes back to waiting_for_ready; the ready signal of the newcomer
    starts the match and a new loop, which saves a second row, 0-6 with a
    limit of 5. *)
Theorem rejoin_restarts_a_finished_match :
  (forall (e : @GameEngine float) (n : Z),
     n = 1 /\ player2_connected e = true \/ n = 2 /\ player1_connected e = true ->
     status (snd (player_join n e)) = waiting_for_ready) /\
  (let played := run (both_ready ++ updates 70) short_match in
   let joined := run [OpJoin 1] played in
   let ready := run [OpReady 1] joined in
   let replayed := run (updates 89) ready in
   status (fst (run both_ready new_match)) = playing /\
   status (fst (run (both_ready ++ [OpJoin 1]) new_match)) = waiting_for_ready /\
   rules (fst played) = (finished, 1, 0, 1, Some "Player 2") /\
   rules (fst joined) = (waiting_for_ready, 1, 0, 1, Some "Player 2") /\
   rules (fst ready) = (playing, 1, 0, 1, Some "Player 2") /\
   rules (fst replayed) = (finished, 1, 0, 2, Some "Player 2")) /\
  (let ended := history match_ends last_point in
   let rejoined := history rejoin ended in
   let restarted := history [PlayerReady "chan.carol"] rejoined in
   option_map rules (engine_of ended "ROOM")
   = Some (finished, 5, 0, 5, Some "Player 2") /\
   option_map rules (engine_of rejoined "ROOM")
   = Some (waiting_for_ready, 5, 0, 5, Some "Player 2") /\
   option_map rules (engine_of restarted "ROOM")
   = Some (playing, 5, 0, 5, Some "Player 2") /\
   (exists sent e' g',
      game_loop unrounded [] alice (active_rooms last_point) (rng last_point)
      = Ok (sent, Some e', g', true) /\
      In (save_match_history
            {| models.room_code := "ROOM"; models.player1_score := 0;
               models.player2_score := 5; models.winner := Some "Player 2";
               models.points_limit := 5 |}) sent) /\
   exists carol' sent e' g',
     sockets restarted !! "chan.carol" = Some carol' /\
     game_loop unrounded (repeat [] 70) carol' (active_rooms restarted) (rng restarted)
     = Ok (sent, Some e', g', true) /\
     rules e' = (finished, 5, 0, 6, Some "Player 2") /\
     last sent = Some (game_over (get_game_over_data e')) /\
     In (save_match_history
           {| models.room_code := "ROOM"; models.player1_score := 0;
              models.player2_score := 6; models.winner := Some "Player 2";
              models.points_limit := 5 |}) sent).
Proof.
  split; [|split].
  - intros e n [[-> Hc]|[-> Hc]]; unfold player_join; cbn; rewrite Hc; reflexivity.
  - vm_compute. repeat split.
  - cbv zeta. split; [vm_compute; reflexivity|]. split; [vm_compute; reflexivity|].
    split; [vm_compute; reflexivity|].
    split; [eexists _, _, _; split; [vm_compute; reflexivity|vm_compute; auto]|].
    eexists _, _, _, _. split; [vm_compute; reflexivity|].
    split; [vm_compute; reflexivity|].
    split; [vm_compute; reflexivity|].
    split; [vm_compute; reflexivity|].
    vm_compute. auto 100.
Qed.

End consumer_laws.
